(** * vital-sense-monitor: the PPG signal-processing pipeline

    A shallow embedding of the TypeScript sources
      - src/utils/signalExtraction.ts  (SignalExtractor and the adaptive
        PPGProcessor with its parameter adapter),
      - src/utils/ppgProcessor.ts      (the plain PPGProcessor),
      - src/components/HeartRateMonitor.tsx (UltraAdvancedPPGProcessor),
    and the properties of the pipeline stated in the specification.

    JavaScript numbers are IEEE 754 binary64 values: they are modelled by
    Rocq's primitive floats, whose operations are the same binary64
    operations (NaN, infinities and signed zeros included). *)

From Stdlib Require Import ZArith List Bool Lia String.
From Stdlib Require Import Floats.
From Stdlib Require Import Zpower.
From Stdlib Require Uint63.
Import ListNotations.

#[local] Set Warnings "-inexact-float".

(** ** JavaScript numbers *)

Module JS.

Definition number := float.

(** [isNaN x]. *)
Definition isNaN (x : number) : bool := negb (x =? x)%float.

(** An integer of magnitude below 2^53 as a number (array lengths,
    counters, byte values, array indices). *)
Definition ofZ (z : Z) : number :=
  if (z <? 0)%Z then (- of_uint63 (Uint63.of_Z (- z)))%float
  else of_uint63 (Uint63.of_Z z).

Definition ofNat (n : nat) : number := ofZ (Z.of_nat n).

(** [Math.max(a, b)] and [Math.min(a, b)]: NaN if either argument is NaN,
    and +0 is larger than -0. *)
Definition Math_max (a b : number) : number :=
  if isNaN a || isNaN b then nan
  else if (a <? b)%float then b
  else if (b <? a)%float then a
  else if get_sign a then b else a.

Definition Math_min (a b : number) : number :=
  if isNaN a || isNaN b then nan
  else if (a <? b)%float then a
  else if (b <? a)%float then b
  else if get_sign a then a else b.

(** [Math.max(...xs)] and [Math.min(...xs)]: the folds start from
    -Infinity and +Infinity, the values on an empty array. *)
Definition Math_max_list (xs : list number) : number :=
  fold_left Math_max xs neg_infinity.

Definition Math_min_list (xs : list number) : number :=
  fold_left Math_min xs infinity.

(** [Math.round(x)]: the integer nearest to [x], ties towards +Infinity;
    the sign of a zero result is the sign of [x]. *)
Definition Math_round (x : number) : number :=
  match Prim2SF x with
  | S754_finite s m e =>
      if (0 <=? e)%Z then x
      else
        let d := (2 ^ (- e))%Z in
        let n := if s then Z.neg m else Z.pos m in
        let q := ((2 * n + d) / (2 * d))%Z in
        if (q =? 0)%Z then (if s then (-0)%float else 0%float) else ofZ q
  | _ => x
  end.

(** [Math.pow(x, 2)], taken as the correctly rounded square. *)
Definition Math_pow2 (x : number) : number := (x * x)%float.

(** [xs.reduce((a, b) => a + b, 0)]. *)
Definition sum (xs : list number) : number :=
  fold_left (fun a b => (a + b)%float) xs 0%float.

(** [xs.reduce((a, b) => a + Math.pow(b - mean, 2), 0)]. *)
Definition sumSquares (mean : number) (xs : list number) : number :=
  fold_left (fun a b => (a + Math_pow2 (b - mean))%float) xs 0%float.

Definition length (xs : list number) : number := ofNat (List.length xs).

(** [xs[i]] read as a number: a missing element is [undefined], which every
    arithmetic operation and comparison here turns into NaN. *)
Definition at_ (xs : list number) (i : Z) : number :=
  if (i <? 0)%Z then nan else nth (Z.to_nat i) xs nan.

(** [xs.indexOf(v)]: strict equality, so NaN is never found and the zeros
    are equal; -1 when absent. *)
Fixpoint indexOf_from (i : Z) (v : number) (xs : list number) : Z :=
  match xs with
  | [] => (-1)%Z
  | x :: r => if (x =? v)%float then i else indexOf_from (i + 1)%Z v r
  end.

Definition indexOf (xs : list number) (v : number) : Z := indexOf_from 0 v xs.

(** [xs.slice(-n)]: the last [n] elements. *)
Definition slice_last {A} (n : nat) (xs : list A) : list A :=
  skipn (List.length xs - n) xs.

(** [xs.push(v); if (xs.length > cap) xs.shift()]. *)
Definition push_capped {A} (cap : nat) (xs : list A) (v : A) : list A :=
  let ys := xs ++ [v] in
  if (cap <? List.length ys)%nat then tl ys else ys.

(** [x || 0] on a number: 0, -0 and NaN are falsy. *)
Definition orZero (x : number) : number :=
  if isNaN x || (x =? 0)%float then 0%float else x.

(** The IEEE comparison of two numbers ([None]: unordered), as the
    specification of binary64 gives it, and the numbers that are not NaN. *)
Definition cmp (x y : number) : option comparison :=
  SFcompare (Prim2SF x) (Prim2SF y).

Definition comparable (x : number) : Prop := Prim2SF x <> S754_nan.

(** The identity of two numbers (the test of [Object.is]): the two zeros
    differ, NaN is identical to NaN. *)
Definition same (x y : number) : bool :=
  match Prim2SF x, Prim2SF y with
  | S754_zero s1, S754_zero s2 => Bool.eqb s1 s2
  | S754_infinity s1, S754_infinity s2 => Bool.eqb s1 s2
  | S754_nan, S754_nan => true
  | S754_finite s1 m1 e1, S754_finite s2 m2 e2 =>
      Bool.eqb s1 s2 && Pos.eqb m1 m2 && Z.eqb e1 e2
  | _, _ => false
  end.

End JS.

Bind Scope float_scope with JS.number.


(** ** Camera frames *)

(** [ImageData]: [data] holds four bytes (red, green, blue, alpha) per
    pixel, row by row. *)
Record ImageData := {
  width : Z;
  height : Z;
  data : list Byte.byte
}.

(** [imageData.data[i]] read as a number; out of range it is [undefined],
    which arithmetic and comparisons treat as NaN. *)
Definition dataAt (img : ImageData) (i : Z) : JS.number :=
  if (i <? 0)%Z then nan
  else match nth_error (data img) (Z.to_nat i) with
       | Some b => JS.ofZ (Z.of_N (Byte.to_N b))
       | None => nan
       end.

(** The integers [lo, lo+1, ..., lo+n-1]: the values of a [for] loop
    counter. *)
Definition zrange (lo : Z) (n : nat) : list Z :=
  map (fun i => (lo + Z.of_nat i)%Z) (seq 0 n).

(** A frame of [w] by [h] pixels, all of one colour. *)
Definition uniformFrame (w h : nat) (r g b : Byte.byte) : ImageData :=
  {| width := Z.of_nat w; height := Z.of_nat h;
     data := List.concat (repeat [r; g; b; Byte.xff] (w * h)) |}.

(** ** SignalExtractor (signalExtraction.ts) *)

Module SignalExtractor.

Definition minIntensity : JS.number := 45%float.
Definition maxIntensity : JS.number := 250%float.
Definition smoothingWindow : nat := 5.
Definition minValidPixels : Z := 100.
Definition redDominanceThreshold : JS.number := 1.2%float.
Definition stabilityThreshold : JS.number := 0.15%float.
Definition regionSize : Z := 50.

Record Kalman := {
  q : JS.number;
  r : JS.number;
  p : JS.number;
  x : JS.number;
  k : JS.number
}.

Record state := {
  lastRedValues : list JS.number;
  lastIrValues : list JS.number;
  frameCount : Z;
  lastStabilityValues : list JS.number;
  kalman : Kalman
}.

Definition init : state := {|
  lastRedValues := [];
  lastIrValues := [];
  frameCount := 0;
  lastStabilityValues := [];
  kalman := {| q := 0.1%float; r := 0.8%float; p := 1%float;
              x := 0%float; k := 0%float |}
|}.

Record channels := {
  red : JS.number;
  ir : JS.number;
  quality : JS.number;
  perfusionIndex : JS.number
}.

Definition noFinger : channels :=
  {| red := 0%float; ir := 0%float; quality := 0%float;
     perfusionIndex := 0%float |}.

(** [applyKalmanFilter]: the new estimate and the mutated filter. *)
Definition applyKalmanFilter (f : Kalman) (measurement : JS.number)
  : JS.number * Kalman :=
  let p1 := (p f + q f)%float in
  let k1 := (p1 / (p1 + r f))%float in
  let x1 := (x f + k1 * (measurement - x f))%float in
  let p2 := ((1 - k1) * p1)%float in
  (x1, {| q := q f; r := r f; p := p2; x := x1; k := k1 |}).

(** [calculateStability]: the score and the mutated history. *)
Definition calculateStability (history : list JS.number) (value : JS.number)
  : JS.number * list JS.number :=
  let h := JS.push_capped 10 history value in
  if (List.length h <? 5)%nat then (0%float, h)
  else
    let mean := (JS.sum h / JS.length h)%float in
    let variance := (JS.sumSquares mean h / JS.length h)%float in
    let stability := (1 - JS.Math_min 1%float (sqrt variance / mean))%float in
    (stability, h).

(** The (red, ir) pair read at pixel (x, y) of the frame. *)
Definition pixelAt (img : ImageData) (y x : Z) : JS.number * JS.number :=
  let i := ((y * width img + x) * 4)%Z in
  let red := dataAt img i in
  let green := dataAt img (i + 1) in
  let blue := dataAt img (i + 2) in
  (red, ((green + blue) / 2)%float).

(** The pixels visited by the two nested loops, in loop order. *)
Definition regionPixels (img : ImageData) : list (JS.number * JS.number) :=
  let centerX := (width img / 2)%Z in
  let centerY := (height img / 2)%Z in
  flat_map
    (fun y => map (pixelAt img y)
                  (zrange (centerX - regionSize) (Z.to_nat (2 * regionSize))))
    (zrange (centerY - regionSize) (Z.to_nat (2 * regionSize))).

Definition validPixel (px : JS.number * JS.number) : bool :=
  (minIntensity <? fst px)%float && (fst px <? maxIntensity)%float.

(** What the two nested loops leave in their local variables. *)
Record scan := {
  validRedValues : list JS.number;
  validIrValues : list JS.number;
  redSum : JS.number;
  irSum : JS.number;
  pixelCount : Z;
  maxRed : JS.number;
  maxIr : JS.number
}.

Definition scanRegion (img : ImageData) : scan :=
  let valid := filter validPixel (regionPixels img) in
  let reds := map fst valid in
  let irs := map snd valid in
  {| validRedValues := reds;
     validIrValues := irs;
     redSum := JS.sum reds;
     irSum := JS.sum irs;
     pixelCount := Z.of_nat (List.length valid);
     maxRed := fold_left JS.Math_max reds 0%float;
     maxIr := fold_left JS.Math_max irs 0%float |}.

(** [redSum / pixelCount] and [irSum / pixelCount] (lines 86-87). *)
Definition avgRed (s : scan) : JS.number :=
  (redSum s / JS.ofZ (pixelCount s))%float.

Definition avgIr (s : scan) : JS.number :=
  (irSum s / JS.ofZ (pixelCount s))%float.

(** [avgRed / avgIr] (line 90). *)
Definition redDominance (s : scan) : JS.number :=
  (avgRed s / avgIr s)%float.

(** The frame passes both finger checks (lines 81 and 90). *)
Definition accepted (s : scan) : bool :=
  negb (pixelCount s <? minValidPixels)%Z
  && negb (redDominance s <? redDominanceThreshold)%float.

(** The state left by a rejected frame: only the frame counter moved. *)
Definition countFrame (st : state) : state :=
  {| lastRedValues := lastRedValues st;
     lastIrValues := lastIrValues st;
     frameCount := (frameCount st + 1)%Z;
     lastStabilityValues := lastStabilityValues st;
     kalman := kalman st |}.

(** The smoothing, filtering and scoring of an accepted frame
    (lines 95-135). *)
Definition smoothAndScore (st : state) (s : scan) : channels * state :=
  let reds := JS.push_capped smoothingWindow (lastRedValues st) (avgRed s) in
  let irs := JS.push_capped smoothingWindow (lastIrValues st) (avgIr s) in
  let '(avgRed1, f1) :=
    applyKalmanFilter (kalman st) (JS.sum reds / JS.length reds)%float in
  let '(avgIr1, f2) :=
    applyKalmanFilter f1 (JS.sum irs / JS.length irs)%float in
  let '(stability, hist) :=
    calculateStability (lastStabilityValues st) avgRed1 in
  let perfusionIndex :=
    ((maxRed s - JS.Math_min_list (validRedValues s)) / maxRed s * 100)%float in
  let pixelQuality :=
    JS.Math_min 1%float
      (JS.ofZ (pixelCount s) / JS.ofZ (minValidPixels * 2))%float in
  let stabilityQuality :=
    if (stabilityThreshold <? stability)%float then 1%float
    else (stability / stabilityThreshold)%float in
  let quality := JS.Math_min pixelQuality stabilityQuality in
  ({| red := avgRed1; ir := avgIr1; quality := quality;
      perfusionIndex := perfusionIndex |},
   {| lastRedValues := reds;
      lastIrValues := irs;
      frameCount := (frameCount st + 1)%Z;
      lastStabilityValues := hist;
      kalman := f2 |}).

Definition extractChannels (st : state) (img : ImageData) : channels * state :=
  let s := scanRegion img in
  if (pixelCount s <? minValidPixels)%Z then (noFinger, countFrame st)
  else if (redDominance s <? redDominanceThreshold)%float
       then (noFinger, countFrame st)
  else smoothAndScore st s.

(** The smoothed measurements handed to the filter (lines 102 and 106). *)
Definition redMeasurement (st : state) (img : ImageData) : JS.number :=
  let reds :=
    JS.push_capped smoothingWindow (lastRedValues st) (avgRed (scanRegion img)) in
  (JS.sum reds / JS.length reds)%float.

Definition irMeasurement (st : state) (img : ImageData) : JS.number :=
  let irs :=
    JS.push_capped smoothingWindow (lastIrValues st) (avgIr (scanRegion img)) in
  (JS.sum irs / JS.length irs)%float.

(** Whether a frame passes both finger checks: the verdict depends on the
    frame alone, not on what the extractor has seen before. *)
Definition fingerSeen (img : ImageData) : bool := accepted (scanRegion img).

(** Successive calls of [extractChannels]: the samples returned, in order,
    and the extractor afterwards. *)
Fixpoint extractAll (st : state) (frames : list ImageData)
  : list channels * state :=
  match frames with
  | [] => ([], st)
  | f :: rest =>
      let '(ch, st1) := extractChannels st f in
      let '(chs, st2) := extractAll st1 rest in
      (ch :: chs, st2)
  end.

(** Successive calls of [applyKalmanFilter]: the filter afterwards. *)
Definition filterAll (f : Kalman) (measurements : list JS.number) : Kalman :=
  fold_left (fun f m => snd (applyKalmanFilter f m)) measurements f.

(** Two extractors that differ at most in their frame counter. *)
Definition sameButCount (st1 st2 : state) : Prop :=
  lastRedValues st1 = lastRedValues st2
  /\ lastIrValues st1 = lastIrValues st2
  /\ lastStabilityValues st1 = lastStabilityValues st2
  /\ kalman st1 = kalman st2.

(** The histories are within the sizes the code trims them to. *)
Definition historiesBounded (st : state) : Prop :=
  List.length (lastRedValues st) = List.length (lastIrValues st)
  /\ (List.length (lastRedValues st) <= smoothingWindow)%nat
  /\ (List.length (lastStabilityValues st) <= 10)%nat.

End SignalExtractor.

(** ** Values exchanged with the helper classes *)

(** [VitalReading] as the processors build it. *)
Record VitalReading := {
  timestamp : Z;
  value : JS.number
}.

(** What [estimateBloodPressure] returns. *)
Record BloodPressure := {
  bp_systolic : JS.number;
  bp_diastolic : JS.number
}.

(** What [performFFT] returns. *)
Record Spectrum := {
  frequencies : list JS.number;
  magnitudes : list JS.number
}.

(** [this.peakTimes[i] - this.peakTimes[i-1]] for [i = 1 .. length-1]. *)
Fixpoint intervalsOf (times : list Z) : list Z :=
  match times with
  | t0 :: ((t1 :: _) as rest) => (t1 - t0)%Z :: intervalsOf rest
  | _ => []
  end.

(** ** The adaptive PPGProcessor (signalExtraction.ts, second class)

    The classes SignalFilter, SignalNormalizer, PeakDetector,
    SignalFrequencyAnalyzer, SignalProcessor, MLModel and BeepPlayer are
    imported from sibling modules whose code is not modelled: the processor
    is parameterised by them.  Each call may read and change the private
    state of these objects, so that state ([ext]) is threaded through the
    calls in the order the processor makes them.  The calls are taken to
    return (a beep that fails is caught by the processor), and to depend on
    nothing but their arguments and that state. *)

Module AdaptivePPG.

Record HRVAnalysis := {
  hrv_hasArrhythmia : bool;
  hrv_type : string;
  hrv_sdnn : JS.number;
  hrv_rmssd : JS.number;
  hrv_pnn50 : JS.number;
  hrv_lfhf : JS.number
}.

Record SpO2Result := {
  spo2_value : JS.number;
  spo2_confidence : JS.number
}.

Record Helpers := {
  ext : Type;
  lowPassFilter : ext -> list JS.number -> JS.number -> list JS.number * ext;
  normalizeSignal : ext -> JS.number -> JS.number * ext;
  isRealPeak : ext -> JS.number -> Z -> list JS.number -> bool * ext;
  playBeep : ext -> string -> JS.number -> ext;
  performFFT : ext -> list JS.number -> Spectrum * ext;
  analyzeHRV : ext -> list Z -> HRVAnalysis * ext;
  calculateSpO2 : ext -> list JS.number -> list JS.number -> SpO2Result * ext;
  estimateBloodPressure : ext -> list JS.number -> list Z -> BloodPressure * ext;
  analyzeSignalQuality : ext -> list JS.number -> JS.number * ext;
  trainModel : ext -> list (list JS.number) -> list (list JS.number) -> ext;
  (* [None]: the prediction threw or its promise was rejected. *)
  predictOptimizedSettings : ext -> list JS.number -> option (list JS.number) * ext
}.

Record SensitivitySettings := {
  signalAmplification : JS.number;
  noiseReduction : JS.number;
  peakDetection : JS.number
}.

Record ProcessingSettings := {
  MEASUREMENT_DURATION : JS.number;
  MIN_FRAMES_FOR_CALCULATION : JS.number;
  MIN_PEAKS_FOR_VALID_HR : JS.number;
  MIN_PEAK_DISTANCE : JS.number;
  MAX_PEAK_DISTANCE : JS.number;
  PEAK_THRESHOLD_FACTOR : JS.number;
  MIN_RED_VALUE : JS.number;
  MIN_RED_DOMINANCE : JS.number;
  MIN_VALID_PIXELS_RATIO : JS.number;
  MIN_BRIGHTNESS : JS.number;
  MIN_VALID_READINGS : JS.number;
  FINGER_DETECTION_DELAY : JS.number;
  MIN_SPO2 : JS.number
}.

(** The three fields the parameter adapter writes. *)
Definition withAdapted (c : ProcessingSettings) (minRed factor ratio : JS.number)
  : ProcessingSettings :=
  {| MEASUREMENT_DURATION := MEASUREMENT_DURATION c;
     MIN_FRAMES_FOR_CALCULATION := MIN_FRAMES_FOR_CALCULATION c;
     MIN_PEAKS_FOR_VALID_HR := MIN_PEAKS_FOR_VALID_HR c;
     MIN_PEAK_DISTANCE := MIN_PEAK_DISTANCE c;
     MAX_PEAK_DISTANCE := MAX_PEAK_DISTANCE c;
     PEAK_THRESHOLD_FACTOR := factor;
     MIN_RED_VALUE := minRed;
     MIN_RED_DOMINANCE := MIN_RED_DOMINANCE c;
     MIN_VALID_PIXELS_RATIO := ratio;
     MIN_BRIGHTNESS := MIN_BRIGHTNESS c;
     MIN_VALID_READINGS := MIN_VALID_READINGS c;
     FINGER_DETECTION_DELAY := FINGER_DETECTION_DELAY c;
     MIN_SPO2 := MIN_SPO2 c |}.

Definition initialSensitivity : SensitivitySettings :=
  {| signalAmplification := 1.5%float;
     noiseReduction := 1.2%float;
     peakDetection := 1.3%float |}.

Definition initialProcessing : ProcessingSettings :=
  {| MEASUREMENT_DURATION := 30%float;
     MIN_FRAMES_FOR_CALCULATION := 15%float;
     MIN_PEAKS_FOR_VALID_HR := 2%float;
     MIN_PEAK_DISTANCE := 400%float;
     MAX_PEAK_DISTANCE := 1200%float;
     PEAK_THRESHOLD_FACTOR := 0.4%float;
     MIN_RED_VALUE := 15%float;
     MIN_RED_DOMINANCE := 1.2%float;
     MIN_VALID_PIXELS_RATIO := 0.2%float;
     MIN_BRIGHTNESS := 80%float;
     MIN_VALID_READINGS := 30%float;
     FINGER_DETECTION_DELAY := 500%float;
     MIN_SPO2 := 75%float |}.

(** The snapshot [processFrame] resolves to. *)
Record HRVMetrics := {
  sdnn : JS.number;
  rmssd : JS.number;
  pnn50 : JS.number;
  lfhf : JS.number
}.

Record Snapshot := {
  bpm : JS.number;
  spo2 : JS.number;
  systolic : JS.number;
  diastolic : JS.number;
  hasArrhythmia : bool;
  arrhythmiaType : string;
  signalQuality : JS.number;
  confidence : JS.number;
  readings : list VitalReading;
  isPeak : bool;
  hrvMetrics : HRVMetrics
}.

(** The snapshot of the early return (lines 329-346). *)
Definition noReading : Snapshot :=
  {| bpm := 0%float;
     spo2 := 0%float;
     systolic := 0%float;
     diastolic := 0%float;
     hasArrhythmia := false;
     arrhythmiaType := "Normal"%string;
     signalQuality := 0%float;
     confidence := 0%float;
     readings := [];
     isPeak := false;
     hrvMetrics := {| sdnn := 0%float; rmssd := 0%float;
                      pnn50 := 0%float; lfhf := 0%float |} |}.

Definition samplingRate : nat := 30.
Definition windowSize : nat := 300.
Definition bufferSize : nat := 30.
Definition qualityThreshold : JS.number := 0.2%float.

(** The last accepted vitals ([lastValidBpm], [lastValidSystolic],
    [lastValidDiastolic]). *)
Record LastValid := {
  lastValidBpm : JS.number;
  lastValidSystolic : JS.number;
  lastValidDiastolic : JS.number
}.

Record Vitals := {
  v_bpm : JS.number;
  v_systolic : JS.number;
  v_diastolic : JS.number
}.

Definition inRange (lo hi v : JS.number) : bool :=
  (lo <=? v)%float && (v <=? hi)%float.

(** [validateVitalSigns]: the validated vitals and the updated last valid
    values. *)
Definition validateVitalSigns (lv : LastValid) (bpm systolic diastolic : JS.number)
  : Vitals * LastValid :=
  let validBpm :=
    if inRange 40 200 bpm then bpm else JS.orZero (lastValidBpm lv) in
  let validSystolic :=
    if inRange 90 180 systolic then systolic else lastValidSystolic lv in
  let validDiastolic :=
    if inRange 60 120 diastolic then diastolic else lastValidDiastolic lv in
  if (validSystolic <=? validDiastolic)%float then
    ({| v_bpm := validBpm;
        v_systolic := lastValidSystolic lv;
        v_diastolic := lastValidDiastolic lv |}, lv)
  else
    ({| v_bpm := validBpm;
        v_systolic := validSystolic;
        v_diastolic := validDiastolic |},
     {| lastValidBpm := validBpm;
        lastValidSystolic := validSystolic;
        lastValidDiastolic := validDiastolic |}).

(** The rolling training history ([trainingData], [targetData]). *)
Record Training := {
  trainingData : list (list JS.number);
  targetData : list (list JS.number)
}.

(** [saveTrainingData]. *)
Definition saveTrainingData (c : ProcessingSettings) (t : Training)
    (calculatedBpm spo2 signalQuality : JS.number) : Training :=
  if (40 <? calculatedBpm)%float && (calculatedBpm <? 200)%float
     && (75 <=? spo2)%float && (spo2 <=? 100)%float
     && (0.2 <? signalQuality)%float
  then
    let td := trainingData t ++ [[calculatedBpm; spo2; signalQuality]] in
    let tg := targetData t ++
                [[MIN_RED_VALUE c; PEAK_THRESHOLD_FACTOR c;
                  MIN_VALID_PIXELS_RATIO c]] in
    if (100 <? List.length td)%nat
    then {| trainingData := tl td; targetData := tl tg |}
    else {| trainingData := td; targetData := tg |}
  else t.

(** The body of [updateSettingsWithML] once the prediction is known. *)
Definition applyPrediction (c : ProcessingSettings) (optimizedSettings : list JS.number)
  : ProcessingSettings :=
  let o0 := JS.at_ optimizedSettings 0 in
  let o1 := JS.at_ optimizedSettings 1 in
  let o2 := JS.at_ optimizedSettings 2 in
  if negb (JS.isNaN o0) && negb (JS.isNaN o1) && negb (JS.isNaN o2) then
    withAdapted c
      (if inRange 10 30 o0 then o0 else MIN_RED_VALUE c)
      (if inRange 0.3 0.7 o1 then o1 else PEAK_THRESHOLD_FACTOR c)
      (if inRange 0.1 0.5 o2 then o2 else MIN_VALID_PIXELS_RATIO c)
  else c.

(** [validBpm], [validSystolic] and [validDiastolic] of
    [validateVitalSigns]. *)
Definition validBpmOf (lv : LastValid) (b : JS.number) : JS.number :=
  if inRange 40 200 b then b else JS.orZero (lastValidBpm lv).

Definition validSystolicOf (lv : LastValid) (s : JS.number) : JS.number :=
  if inRange 90 180 s then s else lastValidSystolic lv.

Definition validDiastolicOf (lv : LastValid) (d : JS.number) : JS.number :=
  if inRange 60 120 d then d else lastValidDiastolic lv.

(** The pressures kept as last valid are ordered. *)
Definition pressureOrdered (lv : LastValid) : Prop :=
  (lastValidDiastolic lv <? lastValidSystolic lv)%float = true.

(** A rate that is 0 or within [40, 200]. *)
Definition rateInBand (b : JS.number) : Prop :=
  (b =? 0)%float = true \/ inRange 40 200 b = true.

(** An oxygen saturation that is 0 or within [75, 100]. *)
Definition saturationInBand (s : JS.number) : Prop :=
  s = 0%float \/ inRange 75 100 s = true.

(** The pressures of a snapshot: both zero, or systolic above diastolic. *)
Definition pressuresConsistent (systolic diastolic : JS.number) : Prop :=
  (systolic = 0%float /\ diastolic = 0%float)
  \/ (diastolic <? systolic)%float = true.

(** The three adapted thresholds are inside their safe ranges. *)
Definition safeSettings (c : ProcessingSettings) : bool :=
  inRange 10 30 (MIN_RED_VALUE c)
  && inRange 0.3 0.7 (PEAK_THRESHOLD_FACTOR c)
  && inRange 0.1 0.5 (MIN_VALID_PIXELS_RATIO c).

(** What a caller does with the processor: hand it a frame
    ([processFrame]) or replace the sensitivity settings
    ([updateSensitivitySettings]). *)
Inductive call :=
| Frame (imageData : ImageData)
| Sensitivity (settings : SensitivitySettings).

Section Processor.

Variable H : Helpers.

Record state := {
  st_readings : list VitalReading;
  redBuffer : list JS.number;
  irBuffer : list JS.number;
  peakTimes : list Z;
  signalExtractor : SignalExtractor.state;
  signalBuffer : list JS.number;
  training : Training;
  frameCount : Z;
  lastValid : LastValid;
  sensitivitySettings : SensitivitySettings;
  processingSettings : ProcessingSettings;
  helpers : ext H
}.

(** The processor as its constructor leaves it, the helper objects being
    in state [e]. *)
Definition init (e : ext H) : state :=
  {| st_readings := [];
     redBuffer := [];
     irBuffer := [];
     peakTimes := [];
     signalExtractor := SignalExtractor.init;
     signalBuffer := [];
     training := {| trainingData := []; targetData := [] |};
     frameCount := 0;
     lastValid := {| lastValidBpm := 0%float;
                     lastValidSystolic := 120%float;
                     lastValidDiastolic := 80%float |};
     sensitivitySettings := initialSensitivity;
     processingSettings := initialProcessing;
     helpers := e |}.

(** What the extractor returns for the frame, and the state it is left in. *)
Definition sampleOf (st : state) (img : ImageData) : SignalExtractor.channels :=
  fst (SignalExtractor.extractChannels (signalExtractor st) img).

Definition extractorAfter (st : state) (img : ImageData) : SignalExtractor.state :=
  snd (SignalExtractor.extractChannels (signalExtractor st) img).

(** [trainMLModel]. *)
Definition trainMLModel (t : Training) (e : ext H) : ext H :=
  if (10 <? List.length (trainingData t))%nat
  then trainModel H e (trainingData t) (targetData t)
  else e.

(** [updateSettingsWithML]: a failed prediction is caught and changes
    nothing. *)
Definition updateSettingsWithML (c : ProcessingSettings) (e : ext H)
    (calculatedBpm spo2 signalQuality : JS.number)
  : ProcessingSettings * ext H :=
  let '(prediction, e1) :=
    predictOptimizedSettings H e [calculatedBpm; spo2; signalQuality] in
  match prediction with
  | Some optimizedSettings => (applyPrediction c optimizedSettings, e1)
  | None => (c, e1)
  end.

(** The state after the early return: the four histories are emptied. *)
Definition resetBuffers (st : state) (sx : SignalExtractor.state) : state :=
  {| st_readings := [];
     redBuffer := [];
     irBuffer := [];
     peakTimes := [];
     signalExtractor := sx;
     signalBuffer := signalBuffer st;
     training := training st;
     frameCount := (frameCount st + 1)%Z;
     lastValid := lastValid st;
     sensitivitySettings := sensitivitySettings st;
     processingSettings := processingSettings st;
     helpers := helpers st |}.

(** The test of line 324. *)
Definition insufficientSignal (c : ProcessingSettings) (ch : SignalExtractor.channels)
  : bool :=
  (SignalExtractor.quality ch <? qualityThreshold)%float
  || (SignalExtractor.red ch <? MIN_RED_VALUE c)%float.

(** [Math.min(100, Math.max(75, spo2Result.spo2))] (line 422). *)
Definition clampSpO2 (s : JS.number) : JS.number :=
  JS.Math_min 100 (JS.Math_max 75 s).

(** Lines 349-437: the frame passed the test of line 324. *)
Definition processAccepted (st : state) (sx : SignalExtractor.state)
    (ch : SignalExtractor.channels) (now : Z) : Snapshot * state :=
  let frameCount1 := (frameCount st + 1)%Z in
  let amplifiedRed :=
    (SignalExtractor.red ch * signalAmplification (sensitivitySettings st))%float in
  let amplifiedIr :=
    (SignalExtractor.ir ch * signalAmplification (sensitivitySettings st))%float in
  let redPushed := redBuffer st ++ [amplifiedRed] in
  let irPushed := irBuffer st ++ [amplifiedIr] in
  let overflow := (windowSize <? List.length redPushed)%nat in
  let redBuffer1 := if overflow then tl redPushed else redPushed in
  let irBuffer1 := if overflow then tl irPushed else irPushed in
  let '(filteredRed, e1) :=
    lowPassFilter H (helpers st) redBuffer1
      (5 * noiseReduction (sensitivitySettings st))%float in
  let '(normalizedValue, e2) :=
    normalizeSignal H e1
      (JS.at_ filteredRed (Z.of_nat (List.length filteredRed) - 1)) in
  let signalBuffer1 := JS.push_capped bufferSize (signalBuffer st) normalizedValue in
  let '(isPeak1, e3) := isRealPeak H e2 normalizedValue now signalBuffer1 in
  let reading := {| timestamp := now; value := normalizedValue |} in
  let readings1 :=
    if isPeak1 then
      let rs := reading :: st_readings st in
      if (windowSize <? List.length rs)%nat then removelast rs else rs
    else JS.push_capped windowSize (st_readings st) reading in
  let peakTimes1 :=
    if isPeak1 then JS.push_capped 10 (peakTimes st) now else peakTimes st in
  let e4 :=
    if isPeak1 then playBeep H e3 "heartbeat"%string (SignalExtractor.quality ch)
    else e3 in
  let '(spectrum, e5) := performFFT H e4 filteredRed in
  let dominantFreqIndex :=
    JS.indexOf (magnitudes spectrum) (JS.Math_max_list (magnitudes spectrum)) in
  let dominantFreq := JS.at_ (frequencies spectrum) dominantFreqIndex in
  let calculatedBpm := (dominantFreq * 60)%float in
  (* this.peakTimes.slice(1).map((time, i) => time - this.peakTimes[i]) *)
  let intervals := intervalsOf peakTimes1 in
  let '(hrvAnalysis, e6) := analyzeHRV H e5 intervals in
  let '(spo2Result, e7) := calculateSpO2 H e6 redBuffer1 irBuffer1 in
  let '(bp, e8) := estimateBloodPressure H e7 filteredRed peakTimes1 in
  let '(signalQuality1, e9) := analyzeSignalQuality H e8 filteredRed in
  let '(validatedVitals, lastValid1) :=
    validateVitalSigns (lastValid st) calculatedBpm
      (bp_systolic bp) (bp_diastolic bp) in
  let adapt :=
    (frameCount1 mod 30 =? 0)%Z && (0 <? v_bpm validatedVitals)%float in
  let training1 :=
    if adapt then
      saveTrainingData (processingSettings st) (training st)
        (v_bpm validatedVitals) (spo2_value spo2Result) signalQuality1
    else training st in
  let '(processingSettings1, e10) :=
    if adapt then
      updateSettingsWithML (processingSettings st) (trainMLModel training1 e9)
        (v_bpm validatedVitals) (spo2_value spo2Result) signalQuality1
    else (processingSettings st, e9) in
  ({| bpm := v_bpm validatedVitals;
      spo2 := clampSpO2 (spo2_value spo2Result);
      systolic := v_systolic validatedVitals;
      diastolic := v_diastolic validatedVitals;
      hasArrhythmia := hrv_hasArrhythmia hrvAnalysis;
      arrhythmiaType := hrv_type hrvAnalysis;
      signalQuality := signalQuality1;
      confidence := spo2_confidence spo2Result;
      readings := readings1;
      isPeak := isPeak1;
      hrvMetrics := {| sdnn := hrv_sdnn hrvAnalysis;
                       rmssd := hrv_rmssd hrvAnalysis;
                       pnn50 := hrv_pnn50 hrvAnalysis;
                       lfhf := hrv_lfhf hrvAnalysis |} |},
   {| st_readings := readings1;
      redBuffer := redBuffer1;
      irBuffer := irBuffer1;
      peakTimes := peakTimes1;
      signalExtractor := sx;
      signalBuffer := signalBuffer1;
      training := training1;
      frameCount := frameCount1;
      lastValid := lastValid1;
      sensitivitySettings := sensitivitySettings st;
      processingSettings := processingSettings1;
      helpers := e10 |}).

(** [processFrame]; [now] is what [Date.now()] returns during the call. *)
Definition processFrame (st : state) (imageData : ImageData) (now : Z)
  : Snapshot * state :=
  let '(ch, sx) :=
    SignalExtractor.extractChannels (signalExtractor st) imageData in
  if insufficientSignal (processingSettings st) ch
  then (noReading, resetBuffers st sx)
  else processAccepted st sx ch now.

(** [updateSensitivitySettings]. *)
Definition updateSensitivitySettings (st : state) (settings : SensitivitySettings)
  : state :=
  {| st_readings := st_readings st;
     redBuffer := redBuffer st;
     irBuffer := irBuffer st;
     peakTimes := peakTimes st;
     signalExtractor := signalExtractor st;
     signalBuffer := signalBuffer st;
     training := training st;
     frameCount := frameCount st;
     lastValid := lastValid st;
     sensitivitySettings := settings;
     processingSettings := processingSettings st;
     helpers := helpers st |}.

(** A session: the calls are served one after the other, the [i]-th call
    reading the clock value [clock i]; the frames yield the snapshots. *)
Fixpoint runFrom (i : nat) (clock : nat -> Z) (st : state) (calls : list call)
  : list Snapshot * state :=
  match calls with
  | [] => ([], st)
  | Frame f :: rest =>
      let '(snap, st1) := processFrame st f (clock i) in
      let '(snaps, st2) := runFrom (S i) clock st1 rest in
      (snap :: snaps, st2)
  | Sensitivity settings :: rest =>
      runFrom (S i) clock (updateSensitivitySettings st settings) rest
  end.

Definition run (clock : nat -> Z) (st : state) (calls : list call)
  : list Snapshot * state :=
  runFrom 0 clock st calls.

End Processor.

Arguments st_readings {H} _.
Arguments redBuffer {H} _.
Arguments irBuffer {H} _.
Arguments peakTimes {H} _.
Arguments signalExtractor {H} _.
Arguments signalBuffer {H} _.
Arguments training {H} _.
Arguments frameCount {H} _.
Arguments lastValid {H} _.
Arguments sensitivitySettings {H} _.
Arguments processingSettings {H} _.
Arguments helpers {H} _.
Arguments resetBuffers {H} _ _.
Arguments sampleOf {H} _ _.
Arguments extractorAfter {H} _ _.

(** The histories of the processor are within the sizes the code trims
    them to, and the paired ones have equal lengths. *)
Definition historiesBounded {H : Helpers} (st : state H) : Prop :=
  List.length (redBuffer st) = List.length (irBuffer st)
  /\ (List.length (redBuffer st) <= windowSize)%nat
  /\ (List.length (st_readings st) <= windowSize)%nat
  /\ (List.length (signalBuffer st) <= bufferSize)%nat
  /\ (List.length (peakTimes st) <= 10)%nat
  /\ List.length (trainingData (training st))
     = List.length (targetData (training st))
  /\ (List.length (trainingData (training st)) <= 100)%nat.

(** The number of [processFrame] calls among the calls of a session. *)
Definition framesIn (calls : list call) : Z :=
  Z.of_nat (List.length
              (filter (fun c => match c with Frame _ => true | _ => false end)
                      calls)).

(** A stored training example: a rate, a saturation and a quality that
    passed the test of [saveTrainingData]. *)
Definition validExample (row : list JS.number) : Prop :=
  exists b s q,
    row = [b; s; q]
    /\ (40 <? b)%float = true /\ (b <? 200)%float = true
    /\ inRange 75 100 s = true
    /\ (0.2 <? q)%float = true.

(** A stored training target: three thresholds inside their safe ranges. *)
Definition safeTarget (row : list JS.number) : Prop :=
  exists a b c,
    row = [a; b; c]
    /\ inRange 10 30 a = true
    /\ inRange 0.3 0.7 b = true
    /\ inRange 0.1 0.5 c = true.

(** The pressures of a snapshot: both zero, or each inside the range
    [validateVitalSigns] accepts. *)
Definition pressuresInBands (systolic diastolic : JS.number) : Prop :=
  (systolic = 0%float /\ diastolic = 0%float)
  \/ (inRange 90 180 systolic = true /\ inRange 60 120 diastolic = true).

End AdaptivePPG.

(** ** The plain PPGProcessor (ppgProcessor.ts)

    SignalProcessor and BeepPlayer are imported from sibling modules whose
    code is not modelled; as above the processor is parameterised by
    them. *)

Module PPGProcessor.

Record Helpers := {
  ext : Type;
  UserCalibration : Type;
  updateCalibrationConstants : ext -> UserCalibration -> ext;
  lowPassFilter : ext -> list JS.number -> JS.number -> list JS.number * ext;
  performFFT : ext -> list JS.number -> Spectrum * ext;
  analyzeHRV : ext -> list Z -> (bool * string) * ext;
  calculateSpO2 : ext -> list JS.number -> list JS.number -> JS.number * ext;
  estimateBloodPressure : ext -> list JS.number -> list Z -> BloodPressure * ext;
  estimateBloodPressureWithCalibration :
    ext -> list JS.number -> list Z -> UserCalibration -> BloodPressure * ext;
  analyzeSignalQuality : ext -> list JS.number -> JS.number * ext;
  playBeep : ext -> ext
}.

Definition windowSize : nat := 300.
Definition minPeakDistance : Z := 500.
Definition bufferSize : nat := 30.
Definition qualityThreshold : JS.number := 0.6%float.
Definition regionSize : Z := 50.

Record channels := {
  red : JS.number;
  ir : JS.number;
  quality : JS.number
}.

(** What the two nested loops of [extractChannels] leave in their local
    variables. *)
Record scan := {
  redSum : JS.number;
  irSum : JS.number;
  pixelCount : Z;
  saturationCount : Z
}.

Definition scanPixel (img : ImageData) (y : Z) (acc : scan) (x : Z) : scan :=
  if (0 <=? x)%Z && (x <? width img)%Z && (0 <=? y)%Z && (y <? height img)%Z
  then
    let i := ((y * width img + x) * 4)%Z in
    let red := dataAt img i in
    let green := dataAt img (i + 1) in
    let blue := dataAt img (i + 2) in
    {| redSum := (redSum acc + red)%float;
       irSum := (irSum acc + (green * 0.7 + blue * 0.3))%float;
       pixelCount := (pixelCount acc + 1)%Z;
       saturationCount :=
         if (250 <? red)%float || (red <? 5)%float
         then (saturationCount acc + 1)%Z else saturationCount acc |}
  else acc.

Definition scanRegion (img : ImageData) : scan :=
  let centerX := (width img / 2)%Z in
  let centerY := (height img / 2)%Z in
  fold_left
    (fun acc y =>
       fold_left (scanPixel img y)
                 (zrange (centerX - regionSize) (Z.to_nat (2 * regionSize))) acc)
    (zrange (centerY - regionSize) (Z.to_nat (2 * regionSize)))
    {| redSum := 0%float; irSum := 0%float;
       pixelCount := 0; saturationCount := 0 |}.

(** [saturationCount / pixelCount] (line 169). *)
Definition saturationRatio (s : scan) : JS.number :=
  (JS.ofZ (saturationCount s) / JS.ofZ (pixelCount s))%float.

(** The return value of [extractChannels] from the loop variables. *)
Definition channelsOf (s : scan) : channels :=
  {| red := if (0 <? pixelCount s)%Z
            then (redSum s / JS.ofZ (pixelCount s))%float else 0%float;
     ir := if (0 <? pixelCount s)%Z
           then (irSum s / JS.ofZ (pixelCount s))%float else 0%float;
     quality := (1 - saturationRatio s)%float |}.

Definition extractChannels (img : ImageData) : channels :=
  channelsOf (scanRegion img).

(** [normalizeSignal]: the normalised value and the new baseline. *)
Definition normalizeSignal (baseline value : JS.number) : JS.number * JS.number :=
  let baseline1 := (baseline * 0.95 + value * 0.05)%float in
  let normalized := (value - baseline1)%float in
  ((normalized * 100 / JS.Math_max (abs baseline1) 1)%float, baseline1).

(** [validatePeakShape]. *)
Definition validatePeakShape (signalBuffer : list JS.number)
    (adaptiveThreshold currentValue : JS.number) : bool :=
  let samples := JS.slice_last 4 signalBuffer in
  let derivative1 := (JS.at_ samples 2 - JS.at_ samples 1)%float in
  let derivative2 := (JS.at_ samples 3 - JS.at_ samples 2)%float in
  let hasCorrectShape := (0 <? derivative1)%float && (derivative2 <? 0)%float in
  let peakAmplitude := abs (currentValue - JS.Math_min_list samples) in
  let hasSignificantAmplitude :=
    (adaptiveThreshold * 0.3 <? peakAmplitude)%float in
  hasCorrectShape && hasSignificantAmplitude.

Section Processor.

Variable H : Helpers.

Record state := {
  readings : list VitalReading;
  redBuffer : list JS.number;
  irBuffer : list JS.number;
  peakTimes : list Z;
  lastPeakTime : Z;
  signalBuffer : list JS.number;
  baseline : JS.number;
  adaptiveThreshold : JS.number;
  calibrationData : option (UserCalibration H);
  helpers : ext H
}.

Definition init (e : ext H) : state :=
  {| readings := [];
     redBuffer := [];
     irBuffer := [];
     peakTimes := [];
     lastPeakTime := 0;
     signalBuffer := [];
     baseline := 0%float;
     adaptiveThreshold := 0%float;
     calibrationData := None;
     helpers := e |}.

(** The peak history is spaced, and its last entry is the time of the last
    accepted peak. *)
Definition peaksSpaced (st : state) : Prop :=
  Forall (fun d => (minPeakDistance <= d)%Z) (intervalsOf (peakTimes st))
  /\ last (peakTimes st) (lastPeakTime st) = lastPeakTime st.

(** Two states that differ at most in their readings. *)
Definition sameButReadings (st1 st2 : state) : Prop :=
  redBuffer st1 = redBuffer st2
  /\ irBuffer st1 = irBuffer st2
  /\ peakTimes st1 = peakTimes st2
  /\ lastPeakTime st1 = lastPeakTime st2
  /\ signalBuffer st1 = signalBuffer st2
  /\ baseline st1 = baseline st2
  /\ adaptiveThreshold st1 = adaptiveThreshold st2
  /\ calibrationData st1 = calibrationData st2
  /\ helpers st1 = helpers st2.

(** [isRealPeak]: the verdict, the new adaptive threshold and the helper
    state (a beep is played on a peak). *)
Definition isRealPeak (lastPeak : Z) (signalBuffer : list JS.number)
    (adaptiveThreshold : JS.number) (e : ext H)
    (currentValue : JS.number) (now : Z) : bool * JS.number * ext H :=
  if (now - lastPeak <? minPeakDistance)%Z then (false, adaptiveThreshold, e)
  else if (List.length signalBuffer <? 3)%nat then (false, adaptiveThreshold, e)
  else
    let recentValues := JS.slice_last 5 signalBuffer in
    let avgValue := (JS.sum recentValues / JS.length recentValues)%float in
    let threshold :=
      JS.Math_max (avgValue * 0.6)%float (adaptiveThreshold * 0.7)%float in
    let len := Z.of_nat (List.length signalBuffer) in
    let isPeak :=
      (threshold <? currentValue)%float
      && (JS.at_ signalBuffer (len - 2) <? currentValue)%float
      && (JS.at_ signalBuffer (len - 3) <? currentValue)%float
      && validatePeakShape signalBuffer adaptiveThreshold currentValue in
    if isPeak
    then (true, (adaptiveThreshold * 0.95 + currentValue * 0.05)%float,
          playBeep H e)
    else (false, adaptiveThreshold, e).

Record Snapshot := {
  bpm : JS.number;
  spo2 : JS.number;
  systolic : JS.number;
  diastolic : JS.number;
  hasArrhythmia : bool;
  arrhythmiaType : string;
  signalQuality : JS.number
}.

(** [setCalibrationData]. *)
Definition setCalibrationData (st : state) (d : UserCalibration H) : state :=
  {| readings := readings st;
     redBuffer := redBuffer st;
     irBuffer := irBuffer st;
     peakTimes := peakTimes st;
     lastPeakTime := lastPeakTime st;
     signalBuffer := signalBuffer st;
     baseline := baseline st;
     adaptiveThreshold := adaptiveThreshold st;
     calibrationData := Some d;
     helpers := updateCalibrationConstants H (helpers st) d |}.

(** [processFrame]; [None] is the [null] returned on a low-quality frame,
    and [now] is what [Date.now()] returns during the call. *)
Definition processFrame (st : state) (imageData : ImageData) (now : Z)
  : option Snapshot * state :=
  let ch := extractChannels imageData in
  if (quality ch <? qualityThreshold)%float then (None, st)
  else
    let redPushed := redBuffer st ++ [red ch] in
    let irPushed := irBuffer st ++ [ir ch] in
    let overflow := (windowSize <? List.length redPushed)%nat in
    let redBuffer1 := if overflow then tl redPushed else redPushed in
    let irBuffer1 := if overflow then tl irPushed else irPushed in
    let '(filteredRed, e1) := lowPassFilter H (helpers st) redBuffer1 5 in
    let '(normalizedValue, baseline1) :=
      normalizeSignal (baseline st)
        (JS.at_ filteredRed (Z.of_nat (List.length filteredRed) - 1)) in
    let pushed := readings st ++ [{| timestamp := now; value := normalizedValue |}] in
    let readings1 :=
      if (windowSize <? List.length pushed)%nat
      then JS.slice_last windowSize pushed else pushed in
    let signalBuffer1 := JS.push_capped bufferSize (signalBuffer st) normalizedValue in
    let '(peak, adaptiveThreshold1, e2) :=
      isRealPeak (lastPeakTime st) signalBuffer1 (adaptiveThreshold st) e1
        normalizedValue now in
    let e3 := if peak then playBeep H e2 else e2 in
    let lastPeakTime1 := if peak then now else lastPeakTime st in
    let peakTimes1 :=
      if peak then JS.push_capped 10 (peakTimes st) now else peakTimes st in
    let '(spectrum, e4) := performFFT H e3 filteredRed in
    let dominantFreqIndex :=
      JS.indexOf (magnitudes spectrum) (JS.Math_max_list (magnitudes spectrum)) in
    let dominantFreq := JS.at_ (frequencies spectrum) dominantFreqIndex in
    let fftBpm := (dominantFreq * 60)%float in
    let intervals := intervalsOf peakTimes1 in
    let '(hrvAnalysis, e5) := analyzeHRV H e4 intervals in
    let '(spo2_1, e6) := calculateSpO2 H e5 redBuffer1 irBuffer1 in
    let '(bp, e7) :=
      match calibrationData st with
      | Some d => estimateBloodPressureWithCalibration H e6 filteredRed peakTimes1 d
      | None => estimateBloodPressure H e6 filteredRed peakTimes1
      end in
    let '(signalQuality1, e8) := analyzeSignalQuality H e7 filteredRed in
    (Some {| bpm := JS.Math_round fftBpm;
             spo2 := spo2_1;
             systolic := bp_systolic bp;
             diastolic := bp_diastolic bp;
             hasArrhythmia := fst hrvAnalysis;
             arrhythmiaType := snd hrvAnalysis;
             signalQuality := signalQuality1 |},
     {| readings := readings1;
        redBuffer := redBuffer1;
        irBuffer := irBuffer1;
        peakTimes := peakTimes1;
        lastPeakTime := lastPeakTime1;
        signalBuffer := signalBuffer1;
        baseline := baseline1;
        adaptiveThreshold := adaptiveThreshold1;
        calibrationData := calibrationData st;
        helpers := e8 |}).

(** What a caller does with the processor: hand it a frame
    ([processFrame]) or supply calibration data ([setCalibrationData]). *)
Inductive call :=
| Frame (imageData : ImageData)
| Calibrate (d : UserCalibration H).

(** A session: the calls are served one after the other, the [i]-th call
    reading the clock value [clock i]; the frames yield the snapshots. *)
Fixpoint runFrom (i : nat) (clock : nat -> Z) (st : state) (calls : list call)
  : list (option Snapshot) * state :=
  match calls with
  | [] => ([], st)
  | Frame f :: rest =>
      let '(snap, st1) := processFrame st f (clock i) in
      let '(snaps, st2) := runFrom (S i) clock st1 rest in
      (snap :: snaps, st2)
  | Calibrate d :: rest => runFrom (S i) clock (setCalibrationData st d) rest
  end.

Definition run (clock : nat -> Z) (st : state) (calls : list call)
  : list (option Snapshot) * state :=
  runFrom 0 clock st calls.

End Processor.

Arguments readings {H} _.
Arguments redBuffer {H} _.
Arguments irBuffer {H} _.
Arguments peakTimes {H} _.
Arguments lastPeakTime {H} _.
Arguments signalBuffer {H} _.
Arguments baseline {H} _.
Arguments adaptiveThreshold {H} _.
Arguments calibrationData {H} _.
Arguments helpers {H} _.
Arguments peaksSpaced {H} _.
Arguments sameButReadings {H} _ _.
Arguments Frame {H} _.
Arguments Calibrate {H} _.

(** The histories of the processor are within the sizes the code trims
    them to, and the two channel buffers have equal lengths. *)
Definition historiesBounded {H : Helpers} (st : state H) : Prop :=
  List.length (redBuffer st) = List.length (irBuffer st)
  /\ (List.length (redBuffer st) <= windowSize)%nat
  /\ (List.length (readings st) <= windowSize)%nat
  /\ (List.length (signalBuffer st) <= bufferSize)%nat.

(** The saturation test of line 158. *)
Definition saturated (red : JS.number) : bool :=
  (250 <? red)%float || (red <? 5)%float.

(** The pixels the two loops count: those of the region that lie inside
    the frame, as (y, x) pairs in loop order. *)
Definition countedPixels (img : ImageData) : list (Z * Z) :=
  let centerX := (width img / 2)%Z in
  let centerY := (height img / 2)%Z in
  flat_map
    (fun y =>
       map (fun x => (y, x))
           (filter (fun x => (0 <=? x)%Z && (x <? width img)%Z
                             && (0 <=? y)%Z && (y <? height img)%Z)
                   (zrange (centerX - regionSize) (Z.to_nat (2 * regionSize)))))
    (zrange (centerY - regionSize) (Z.to_nat (2 * regionSize))).

(** The red byte read at a counted pixel. *)
Definition redAt (img : ImageData) (yx : Z * Z) : JS.number :=
  dataAt img ((fst yx * width img + snd yx) * 4).

End PPGProcessor.

(** ** UltraAdvancedPPGProcessor (HeartRateMonitor.tsx, third class)

    The arithmetic of the arrhythmia decision and of the perfusion index;
    the circular buffers and the heartbeat detector the class also uses come
    from modules whose code is not modelled and play no role in them. *)

Module UltraAdvancedPPGProcessor.

(** [peaks[i] - peaks[i-1]] for [i = 1 .. length-1]. *)
Fixpoint intervalsOfPeaks (peaks : list JS.number) : list JS.number :=
  match peaks with
  | p0 :: ((p1 :: _) as rest) => (p1 - p0)%float :: intervalsOfPeaks rest
  | _ => []
  end.

(** [calculateThreshold]. *)
Definition calculateThreshold (data : list JS.number) : JS.number :=
  match data with
  | [] => 0%float
  | _ =>
      let mean := (JS.sum data / JS.length data)%float in
      let stdDev := sqrt (JS.sumSquares mean data / JS.length data) in
      (mean + 0.5 * stdDev)%float
  end.

(** [findPeaks]: the indices [i] in [1 .. length-2] whose sample is above
    the threshold and above both neighbours. *)
Definition findPeaks (data : list JS.number) : list JS.number :=
  match data with
  | [] => []
  | _ =>
      let threshold := calculateThreshold data in
      map JS.ofZ
        (filter
           (fun i =>
              (threshold <? JS.at_ data i)%float
              && (JS.at_ data (i - 1) <? JS.at_ data i)%float
              && (JS.at_ data (i + 1) <? JS.at_ data i)%float)
           (zrange 1 (List.length data - 2)))
  end.

(** [calculateHeartRateVariability]. *)
Definition calculateHeartRateVariability (peaks : list JS.number) : JS.number :=
  if (List.length peaks <? 2)%nat then 0%float
  else
    let intervals := intervalsOfPeaks peaks in
    let mean := (JS.sum intervals / JS.length intervals)%float in
    let variance := (JS.sumSquares mean intervals / JS.length intervals)%float in
    (sqrt variance / mean)%float.

(** [calculatePerfusionIndexSafe]: AC over DC, in percent. *)
Definition calculatePerfusionIndexSafe (signal : list JS.number) : JS.number :=
  match signal with
  | [] => 0%float
  | _ =>
      let max := JS.Math_max_list signal in
      let min := JS.Math_min_list signal in
      let dc := (JS.sum signal / JS.length signal)%float in
      if (dc =? 0)%float then 0%float
      else
        let ac := (max - min)%float in
        (ac / dc * 100)%float
  end.

(** The rhythm fields of the snapshot [processFrame] builds from the peaks
    it found (lines 424-425 and 444-445). *)
Record Rhythm := {
  hasArrhythmia : bool;
  arrhythmiaType : string
}.

Definition rhythmOfPeaks (peaks : list JS.number) : Rhythm :=
  let hrv := calculateHeartRateVariability peaks in
  let hasArrhythmia := (0.2 <? hrv)%float in
  {| hasArrhythmia := hasArrhythmia;
     arrhythmiaType := if hasArrhythmia then "Irregular"%string
                       else "Normal"%string |}.

(** The same fields from the analysis window (line 393). *)
Definition rhythmOfSignal (signalForAnalysis : list JS.number) : Rhythm :=
  rhythmOfPeaks (findPeaks signalForAnalysis).

(** The coefficient of variation in the words of the specification: the
    standard deviation of the intervals divided by their mean. *)
Definition mean (xs : list JS.number) : JS.number :=
  (JS.sum xs / JS.length xs)%float.

Definition standardDeviation (xs : list JS.number) : JS.number :=
  sqrt (JS.sumSquares (mean xs) xs / JS.length xs).

Definition coefficientOfVariation (intervals : list JS.number) : JS.number :=
  (standardDeviation intervals / mean intervals)%float.

(** [extractRedChannel]: [frame.data[i]] for [i = 0, 4, 8, ...] below
    [frame.data.length]. *)
Definition extractRedChannel (frame : ImageData) : list JS.number :=
  map (fun j => dataAt frame (4 * Z.of_nat j))
      (seq 0 ((List.length (data frame) + 3) / 4)).

(** [calculateSignalQuality]: a tenth of the signal-to-noise ratio, clamped
    to [0, 1]. *)
Definition calculateSignalQuality (signal : list JS.number) : JS.number :=
  match signal with
  | [] => 0%float
  | _ =>
      let mean := (JS.sum signal / JS.length signal)%float in
      let variance := (JS.sumSquares mean signal / JS.length signal)%float in
      let snr :=
        if (0 <? variance)%float then (abs mean / sqrt variance)%float
        else 0%float in
      JS.Math_min (JS.Math_max (snr / 10)%float 0%float) 1%float
  end.

(** [extractSignal]: the mean red byte of the frame and the quality of the
    red channel. *)
Definition extractSignal (frame : ImageData) : JS.number * JS.number :=
  let redValues := extractRedChannel frame in
  ((JS.sum redValues / JS.length redValues)%float,
   calculateSignalQuality redValues).

(** [movingAverage], for an integer [windowSize] (5 at its call site):
    sample [i] becomes the mean of the samples at
    [max(0, i - windowSize) .. min(length, i + windowSize + 1) - 1]. *)
Definition movingAverage (data : list JS.number) (windowSize : Z)
  : list JS.number :=
  let n := Z.of_nat (List.length data) in
  map (fun i =>
         let lo := Z.max 0 (i - windowSize) in
         let hi := Z.min n (i + windowSize + 1) in
         let window := map (JS.at_ data) (zrange lo (Z.to_nat (hi - lo))) in
         (JS.sum window / JS.length window)%float)
      (zrange 0 (List.length data)).

(** The indices [findPeaks] keeps, before they are stored as numbers. *)
Definition peakIndices (data : list JS.number) : list Z :=
  let threshold := calculateThreshold data in
  filter
    (fun i =>
       (threshold <? JS.at_ data i)%float
       && (JS.at_ data (i - 1) <? JS.at_ data i)%float
       && (JS.at_ data (i + 1) <? JS.at_ data i)%float)
    (zrange 1 (List.length data - 2)).

(** The indices [findValleys] keeps, and [findValleys]: the samples below
    the same threshold and below both neighbours. *)
Definition valleyIndices (data : list JS.number) : list Z :=
  let threshold := calculateThreshold data in
  filter
    (fun i =>
       (JS.at_ data i <? threshold)%float
       && (JS.at_ data i <? JS.at_ data (i - 1))%float
       && (JS.at_ data i <? JS.at_ data (i + 1))%float)
    (zrange 1 (List.length data - 2)).

Definition findValleys (data : list JS.number) : list JS.number :=
  match data with
  | [] => []
  | _ => map JS.ofZ (valleyIndices data)
  end.

(** [calculateFrequency]: 30 over the mean distance between peaks. *)
Definition calculateFrequency (peaks : list JS.number) : JS.number :=
  if (List.length peaks <? 2)%nat then 0%float
  else
    let totalDistance := JS.sum (intervalsOfPeaks peaks) in
    let averageDistance :=
      (totalDistance / JS.ofZ (Z.of_nat (List.length peaks) - 1))%float in
    if (0 <? averageDistance)%float then (30 / averageDistance)%float
    else 0%float.

(** The vitals [processFrame] derives from the quality and the amplitude
    of the analysis window (lines 420-422). *)
Record Vitals := {
  spo2 : JS.number;
  systolic : JS.number;
  diastolic : JS.number
}.

Definition vitalsOf (signalQuality amplitude : JS.number) : Vitals :=
  {| spo2 := if (0.6 <? signalQuality)%float
             then JS.Math_round (95 + signalQuality * 4)%float else 0%float;
     systolic := if (0.7 <? signalQuality)%float
                 then JS.Math_round (120 + amplitude * 10)%float else 0%float;
     diastolic := if (0.7 <? signalQuality)%float
                  then JS.Math_round (80 + amplitude * 5)%float else 0%float |}.

(** The vitals of an analysis window (lines 396-397 and 420-422). *)
Definition vitalsOfSignal (signalForAnalysis : list JS.number) : Vitals :=
  let amplitude :=
    (JS.Math_max_list signalForAnalysis - JS.Math_min_list signalForAnalysis)%float in
  vitalsOf (calculateSignalQuality signalForAnalysis) amplitude.

End UltraAdvancedPPGProcessor.

(** ** The HeartRateMonitor component (HeartRateMonitor.tsx, first
    version)

    The frame handler of the component that drives the plain processor.
    The values of its [useState] hooks are a record; the toasts it raises
    are returned. *)

Module HeartRateMonitor.

Record Display := {
  bpm : JS.number;
  spo2 : JS.number;
  systolic : JS.number;
  diastolic : JS.number;
  hasArrhythmia : bool;
  arrhythmiaType : string;
  readings : list VitalReading;
  isProcessing : bool
}.

(** The initial values of the hooks (lines 14-21). *)
Definition initialDisplay : Display :=
  {| bpm := 0%float;
     spo2 := 0%float;
     systolic := 0%float;
     diastolic := 0%float;
     hasArrhythmia := false;
     arrhythmiaType := "Normal"%string;
     readings := [];
     isProcessing := false |}.

Record Toast := {
  variant : string;
  title : string
}.

(** The toast of the [catch] block (lines 86-90), by its variant and
    title. *)
Definition processingError : Toast :=
  {| variant := "destructive"%string;
     title := "Error en el procesamiento"%string |}.

Section Component.

Variable H : PPGProcessor.Helpers.

(** [handleFrame] (lines 73-92).  When [processFrame] returns [null], the
    read of [vitals.bpm] throws a TypeError before any setter runs; the
    [catch] block raises the toast. *)
Definition handleFrame (ui : Display) (st : PPGProcessor.state H)
    (imageData : ImageData) (now : Z)
  : Display * PPGProcessor.state H * list Toast :=
  match PPGProcessor.processFrame H st imageData now with
  | (Some vitals, st1) =>
      ({| bpm := PPGProcessor.bpm vitals;
          spo2 := PPGProcessor.spo2 vitals;
          systolic := PPGProcessor.systolic vitals;
          diastolic := PPGProcessor.diastolic vitals;
          hasArrhythmia := PPGProcessor.hasArrhythmia vitals;
          arrhythmiaType := PPGProcessor.arrhythmiaType vitals;
          readings := PPGProcessor.readings st1;
          isProcessing := true |},
       st1, [])
  | (None, st1) =>
      ({| bpm := bpm ui;
          spo2 := spo2 ui;
          systolic := systolic ui;
          diastolic := diastolic ui;
          hasArrhythmia := hasArrhythmia ui;
          arrhythmiaType := arrhythmiaType ui;
          readings := readings ui;
          isProcessing := true |},
       st1, [processingError])
  end.

(** The frames of a camera session handled one after the other, the
    [i]-th reading the clock value [clock i]: the display and the processor
    afterwards, and the toasts raised, in order. *)
Fixpoint handleFrames (i : nat) (clock : nat -> Z) (ui : Display)
    (st : PPGProcessor.state H) (frames : list ImageData)
  : Display * PPGProcessor.state H * list Toast :=
  match frames with
  | [] => (ui, st, [])
  | f :: rest =>
      let '(ui1, st1, toasts1) := handleFrame ui st f (clock i) in
      let '(ui2, st2, toasts2) := handleFrames (S i) clock ui1 st1 rest in
      (ui2, st2, toasts1 ++ toasts2)
  end.

End Component.

(** The frames of a session the plain processor rejects. *)
Definition rejectedFrames (frames : list ImageData) : list ImageData :=
  filter (fun f => (PPGProcessor.quality (PPGProcessor.extractChannels f)
                    <? PPGProcessor.qualityThreshold)%float)
         frames.

End HeartRateMonitor.

(** ** The branded-number helpers (types/index.ts) *)

Module BrandedTypes.

(** [createPercent], [createBPM] and [createMilliseconds] (lines 76-78). *)
Definition createPercent (n : JS.number) : JS.number :=
  JS.Math_max 0%float (JS.Math_min 100%float n).

Definition createBPM (n : JS.number) : JS.number :=
  JS.Math_max 0%float (JS.Math_min 300%float n).

Definition createMilliseconds (n : JS.number) : JS.number :=
  JS.Math_max 0%float n.

End BrandedTypes.

(** ** Concrete frames and helper objects

    Frames of one colour, and fixed-answer stand-ins for the helper classes
    whose code is not modelled; they serve to run the processors on
    concrete inputs.  On a 10 by 10 frame the region of interest of the
    signal extractor (which does not check bounds) reads every index
    [(10 y + x) * 4] that falls inside the data, a thousand reads in all,
    and the plain extractor (which does) reads the hundred pixels once. *)

Module Fixtures.

(** Red 100, green 50, blue 50: a lit fingertip. *)
Definition fingerFrame : ImageData :=
  uniformFrame 10 10 Byte.x64 Byte.x32 Byte.x32.

(** Red 120, green 50, blue 50: the same infrared proxy, more red. *)
Definition brighterFrame : ImageData :=
  uniformFrame 10 10 Byte.x78 Byte.x32 Byte.x32.

(** Red 100, green 0, blue 0: only the red channel is lit. *)
Definition redOnlyFrame : ImageData :=
  uniformFrame 10 10 Byte.x64 Byte.x00 Byte.x00.

(** Red 255 everywhere: a saturated sensor. *)
Definition saturatedFrame : ImageData :=
  uniformFrame 10 10 Byte.xff Byte.xff Byte.xff.

(** A frame without pixels. *)
Definition emptyFrame : ImageData :=
  {| width := 0; height := 0; data := [] |}.

Definition adaptiveHelpers : AdaptivePPG.Helpers :=
  {| AdaptivePPG.ext := unit;
     AdaptivePPG.lowPassFilter := fun e xs _ => (xs, e);
     AdaptivePPG.normalizeSignal := fun e v => (v, e);
     AdaptivePPG.isRealPeak := fun e _ _ _ => (false, e);
     AdaptivePPG.playBeep := fun e _ _ => e;
     AdaptivePPG.performFFT :=
       fun e _ => ({| frequencies := [1.2%float]; magnitudes := [1%float] |}, e);
     AdaptivePPG.analyzeHRV :=
       fun e _ =>
         ({| AdaptivePPG.hrv_hasArrhythmia := false;
             AdaptivePPG.hrv_type := "Normal"%string;
             AdaptivePPG.hrv_sdnn := 0%float;
             AdaptivePPG.hrv_rmssd := 0%float;
             AdaptivePPG.hrv_pnn50 := 0%float;
             AdaptivePPG.hrv_lfhf := 0%float |}, e);
     AdaptivePPG.calculateSpO2 :=
       fun e _ _ =>
         ({| AdaptivePPG.spo2_value := 98%float;
             AdaptivePPG.spo2_confidence := 1%float |}, e);
     AdaptivePPG.estimateBloodPressure :=
       fun e _ _ => ({| bp_systolic := 118%float; bp_diastolic := 76%float |}, e);
     AdaptivePPG.analyzeSignalQuality := fun e _ => (1%float, e);
     AdaptivePPG.trainModel := fun e _ _ => e;
     AdaptivePPG.predictOptimizedSettings :=
       fun e _ => (Some [20%float; 0.5%float; 0.3%float], e) |}.

Definition plainHelpers : PPGProcessor.Helpers :=
  {| PPGProcessor.ext := unit;
     PPGProcessor.UserCalibration := unit;
     PPGProcessor.updateCalibrationConstants := fun e _ => e;
     PPGProcessor.lowPassFilter := fun e xs _ => (xs, e);
     PPGProcessor.performFFT :=
       fun e _ => ({| frequencies := [1.2%float]; magnitudes := [1%float] |}, e);
     PPGProcessor.analyzeHRV := fun e _ => ((false, "Normal"%string), e);
     PPGProcessor.calculateSpO2 := fun e _ _ => (98%float, e);
     PPGProcessor.estimateBloodPressure :=
       fun e _ _ => ({| bp_systolic := 118%float; bp_diastolic := 76%float |}, e);
     PPGProcessor.estimateBloodPressureWithCalibration :=
       fun e _ _ _ => ({| bp_systolic := 121%float; bp_diastolic := 79%float |}, e);
     PPGProcessor.analyzeSignalQuality := fun e _ => (1%float, e);
     PPGProcessor.playBeep := fun e => e |}.

(** The signal extractor after one to five fingertip frames. *)
Definition warm1 : SignalExtractor.channels * SignalExtractor.state :=
  Eval vm_compute in
    SignalExtractor.extractChannels SignalExtractor.init fingerFrame.
Definition warm2 : SignalExtractor.channels * SignalExtractor.state :=
  Eval vm_compute in SignalExtractor.extractChannels (snd warm1) fingerFrame.
Definition warm3 : SignalExtractor.channels * SignalExtractor.state :=
  Eval vm_compute in SignalExtractor.extractChannels (snd warm2) fingerFrame.
Definition warm4 : SignalExtractor.channels * SignalExtractor.state :=
  Eval vm_compute in SignalExtractor.extractChannels (snd warm3) fingerFrame.
Definition warm5 : SignalExtractor.channels * SignalExtractor.state :=
  Eval vm_compute in SignalExtractor.extractChannels (snd warm4) fingerFrame.

End Fixtures.

(** ** Proofs *)

(** Names the results of the helper calls in the goal. *)
Ltac name_calls :=
  repeat match goal with
         | |- context [match ?c with pair _ _ => _ end] =>
             let E := fresh "Call" in destruct c eqn:E
         end.

(** ** Order facts on binary64 comparisons

    The comparisons of primitive floats are specified through [SFcompare];
    the facts below are what the validation code relies on. *)

Module FloatOrder.

Abbreviation cmp := JS.cmp.
Abbreviation comparable := JS.comparable.

Lemma ltb_cmp x y : (x <? y)%float = true <-> cmp x y = Some Lt.
Proof.
  rewrite ltb_spec. unfold SFltb, cmp.
  destruct (SFcompare _ _) as [[]|]; split; intros; congruence.
Qed.

Lemma leb_cmp x y :
  (x <=? y)%float = true <-> cmp x y = Some Lt \/ cmp x y = Some Eq.
Proof.
  rewrite leb_spec. unfold SFleb, cmp.
  destruct (SFcompare _ _) as [[]|]; split; intros; intuition congruence.
Qed.

Lemma eqb_cmp x y : (x =? y)%float = true <-> cmp x y = Some Eq.
Proof.
  rewrite eqb_spec. unfold SFeqb, cmp.
  destruct (SFcompare _ _) as [[]|]; split; intros; congruence.
Qed.

Lemma SFcompare_antisym a b c :
  SFcompare a b = Some c -> SFcompare b a = Some (CompOpp c).
Proof.
  destruct a as [sa|sa| |sa ma ea], b as [sb|sb| |sb mb eb]; simpl;
    try discriminate;
    try (intros H; injection H as <-;
         repeat match goal with s : bool |- _ => destruct s end;
         reflexivity).
  intros H; injection H as <-. f_equal.
  destruct sa, sb; try reflexivity;
    rewrite (Z.compare_antisym ea eb);
    destruct (ea ?= eb)%Z eqn:E; simpl; try reflexivity;
    change (Pos.compare_cont Eq mb ma) with (Pos.compare mb ma);
    change (Pos.compare_cont Eq ma mb) with (Pos.compare ma mb);
    rewrite (Pos.compare_antisym ma mb);
    destruct (ma ?= mb)%positive; reflexivity.
Qed.

Lemma cmp_antisym x y c : cmp x y = Some c -> cmp y x = Some (CompOpp c).
Proof. apply SFcompare_antisym. Qed.

Lemma SFcompare_total a b :
  a <> S754_nan -> b <> S754_nan -> exists c, SFcompare a b = Some c.
Proof.
  destruct a, b; simpl; intros; try congruence; eauto.
Qed.

Lemma SFcompare_refl a : a <> S754_nan -> SFcompare a a = Some Eq.
Proof.
  destruct a as [s|s| |s m e]; simpl; intros; try congruence.
  - destruct s; reflexivity.
  - rewrite Z.compare_refl.
    change (Pos.compare_cont Eq m m) with (Pos.compare m m).
    rewrite Pos.compare_refl. destruct s; reflexivity.
Qed.

Lemma SFcompare_some_l a b c : SFcompare a b = Some c -> a <> S754_nan.
Proof. destruct a; simpl; congruence. Qed.

Lemma SFcompare_some_r a b c : SFcompare a b = Some c -> b <> S754_nan.
Proof. destruct a, b; simpl; congruence. Qed.

Lemma isNaN_false x : JS.isNaN x = false <-> comparable x.
Proof.
  unfold JS.isNaN, comparable. rewrite negb_false_iff, eqb_cmp. unfold cmp.
  split.
  - apply SFcompare_some_l.
  - apply SFcompare_refl.
Qed.

Lemma isNaN_true x : JS.isNaN x = true <-> Prim2SF x = S754_nan.
Proof.
  destruct (JS.isNaN x) eqn:E.
  - split; auto. intros _.
    destruct (Prim2SF x) eqn:P; auto;
      assert (JS.isNaN x = false)
        by (apply isNaN_false; unfold comparable; rewrite P; discriminate);
      congruence.
  - apply isNaN_false in E. split; [discriminate | intros; contradiction].
Qed.

Lemma cmp_comparable_l x y c : cmp x y = Some c -> comparable x.
Proof. apply SFcompare_some_l. Qed.

Lemma cmp_comparable_r x y c : cmp x y = Some c -> comparable y.
Proof. apply SFcompare_some_r. Qed.

Lemma cmp_total x y : comparable x -> comparable y -> exists c, cmp x y = Some c.
Proof. apply SFcompare_total. Qed.

Lemma ltb_comparable_l x y : (x <? y)%float = true -> comparable x.
Proof. rewrite ltb_cmp. apply cmp_comparable_l. Qed.

Lemma ltb_comparable_r x y : (x <? y)%float = true -> comparable y.
Proof. rewrite ltb_cmp. apply cmp_comparable_r. Qed.

Lemma leb_comparable_l x y : (x <=? y)%float = true -> comparable x.
Proof. rewrite leb_cmp. intros [H|H]; eapply cmp_comparable_l; eauto. Qed.

Lemma leb_comparable_r x y : (x <=? y)%float = true -> comparable y.
Proof. rewrite leb_cmp. intros [H|H]; eapply cmp_comparable_r; eauto. Qed.

Lemma ltb_leb x y : (x <? y)%float = true -> (x <=? y)%float = true.
Proof. rewrite ltb_cmp, leb_cmp. auto. Qed.

(** On numbers that are not NaN, [x <= y] fails exactly when [y < x]. *)
Lemma leb_false_ltb x y :
  comparable x -> comparable y ->
  (x <=? y)%float = false -> (y <? x)%float = true.
Proof.
  intros Hx Hy H. destruct (cmp_total x y Hx Hy) as [c Hc].
  apply ltb_cmp. destruct c.
  - assert ((x <=? y)%float = true) by (apply leb_cmp; auto). congruence.
  - assert ((x <=? y)%float = true) by (apply leb_cmp; auto). congruence.
  - apply cmp_antisym in Hc. exact Hc.
Qed.

(** On numbers that are not NaN, neither [x < y] nor [y < x] means equal. *)
Lemma not_ltb_eq x y :
  comparable x -> comparable y ->
  (x <? y)%float = false -> (y <? x)%float = false ->
  cmp x y = Some Eq /\ cmp y x = Some Eq.
Proof.
  intros Hx Hy H1 H2. destruct (cmp_total x y Hx Hy) as [c Hc].
  destruct c.
  - split; auto. apply cmp_antisym in Hc. exact Hc.
  - apply ltb_cmp in Hc. congruence.
  - apply cmp_antisym in Hc. apply ltb_cmp in Hc. congruence.
Qed.

Lemma ltb_irrefl_sym x y : (x <? y)%float = true -> (y <=? x)%float = false.
Proof.
  rewrite ltb_cmp. intros H. apply cmp_antisym in H. simpl in H.
  destruct (y <=? x)%float eqn:E; auto.
  apply leb_cmp in E. destruct E; congruence.
Qed.

End FloatOrder.

(** ** Differences and quotients of binary64 numbers *)

Module FloatArith.

Lemma binary_round_aux_positive mx ex lx :
  SFcompare (binary_round_aux prec emax false mx ex lx) (S754_zero false)
  <> Some Lt.
Proof.
  unfold binary_round_aux.
  destruct (shr_fexp prec emax mx ex lx) as [mrs1 e1].
  destruct (shr_fexp prec emax _ e1 loc_Exact) as [mrs2 e2].
  destruct (shr_m mrs2); simpl; try discriminate.
  destruct (e2 <=? _)%Z; simpl; discriminate.
Qed.

Lemma binary_normalize_positive m e :
  (0 <= m)%Z ->
  SFcompare (binary_normalize prec emax m e false) (S754_zero false)
  <> Some Lt.
Proof.
  intros P. destruct m as [|m|m]; simpl.
  - discriminate.
  - unfold binary_round.
    destruct (shl_align _ _ _). apply binary_round_aux_positive.
  - lia.
Qed.

Lemma digits2_pos_bounds m :
  (2 ^ (Z.pos (digits2_pos m) - 1) <= Z.pos m < 2 ^ Z.pos (digits2_pos m))%Z.
Proof.
  induction m as [m IH|m IH|]; simpl digits2_pos.
  - rewrite Pos2Z.inj_succ.
    replace (Z.succ (Z.pos (digits2_pos m)) - 1)%Z
      with (Z.succ (Z.pos (digits2_pos m) - 1))%Z by lia.
    rewrite !Z.pow_succ_r by lia. lia.
  - rewrite Pos2Z.inj_succ.
    replace (Z.succ (Z.pos (digits2_pos m)) - 1)%Z
      with (Z.succ (Z.pos (digits2_pos m) - 1))%Z by lia.
    rewrite !Z.pow_succ_r by lia. lia.
  - simpl. lia.
Qed.

Lemma shl_align_value mx ex ez :
  (ez <= ex)%Z ->
  Z.pos (fst (shl_align mx ex ez)) = (Z.pos mx * 2 ^ (ex - ez))%Z.
Proof.
  intros L. unfold shl_align.
  destruct (ez - ex)%Z as [|d|d] eqn:E.
  - replace (ex - ez)%Z with 0%Z by lia. simpl. lia.
  - lia.
  - simpl fst. change (Pos.iter xO mx d) with (shift_pos d mx).
    rewrite shift_pos_correct.
    replace (ex - ez)%Z with (Z.pos d) by lia.
    rewrite Z.pow_pos_fold. lia.
Qed.

(** A valid float with the larger exponent has the larger magnitude. *)
Lemma larger_exponent_larger_magnitude mx ex my ey :
  bounded prec emax mx ex = true ->
  bounded prec emax my ey = true ->
  (ey < ex)%Z ->
  (Z.pos my < Z.pos mx * 2 ^ (ex - ey))%Z.
Proof.
  unfold bounded, canonical_mantissa, fexp. intros Bx By L.
  apply andb_prop in Bx. destruct Bx as [Cx _].
  apply andb_prop in By. destruct By as [Cy _].
  apply Z.eqb_eq in Cx. apply Z.eqb_eq in Cy.
  pose proof (digits2_pos_bounds mx) as [Lx _].
  pose proof (digits2_pos_bounds my) as [_ Uy].
  assert (Dx : Z.pos (digits2_pos mx) = prec) by lia.
  assert (Dy : (Z.pos (digits2_pos my) <= prec)%Z) by lia.
  rewrite Dx in Lx.
  assert (Uy' : (Z.pos my < 2 ^ prec)%Z).
  { eapply Z.lt_le_trans; [exact Uy|].
    apply Z.pow_le_mono_r; lia. }
  assert (P2 : (2 ^ 1 <= 2 ^ (ex - ey))%Z) by (apply Z.pow_le_mono_r; lia).
  assert (E : (2 ^ prec = 2 ^ (prec - 1) * 2 ^ 1)%Z) by reflexivity.
  nia.
Qed.

(** On valid floats, [y < x] makes [x - y] positive, zero, infinite or NaN,
    never negative. *)
Lemma SFsub_not_negative X Y :
  valid_binary X = true ->
  valid_binary Y = true ->
  SFcompare Y X = Some Lt ->
  SFcompare (SFsub prec emax X Y) (S754_zero false) <> Some Lt.
Proof.
  intros VX VY C.
  destruct X as [sx|sx| |sx mx ex], Y as [sy|sy| |sy my ey];
    try discriminate C;
    try (destruct sx, sy; simpl in *; discriminate).
  unfold SFsub. apply binary_normalize_positive.
  simpl in VX, VY.
  assert (Ax := shl_align_value mx ex (Z.min ex ey) (Z.le_min_l ex ey)).
  assert (Ay := shl_align_value my ey (Z.min ex ey) (Z.le_min_r ex ey)).
  rewrite Ax, Ay. clear Ax Ay.
  simpl in C. injection C as C.
  destruct sy, sx; unfold cond_Zopp; try discriminate C.
  - (* both negative *)
    destruct (ey ?= ex)%Z eqn:E; try discriminate C.
    + apply Z.compare_eq in E. subst ey.
      rewrite Z.min_id, Z.sub_diag, Z.pow_0_r, !Z.mul_1_r.
      change (Pos.compare_cont Eq my mx) with (Pos.compare my mx) in C.
      destruct (my ?= mx)%positive eqn:P; try discriminate C.
      rewrite Pos.compare_gt_iff in P. lia.
    + apply Z.compare_gt_iff in E.
      pose proof (larger_exponent_larger_magnitude my ey mx ex VY VX E).
      assert (M : Z.min ex ey = ex) by (apply Z.min_l; lia).
      rewrite M, Z.sub_diag, Z.pow_0_r, Z.mul_1_r. lia.
  - (* x positive, y negative *)
    assert (0 < 2 ^ (ex - Z.min ex ey))%Z by (apply Z.pow_pos_nonneg; lia).
    assert (0 < 2 ^ (ey - Z.min ex ey))%Z by (apply Z.pow_pos_nonneg; lia).
    nia.
  - (* both positive *)
    destruct (ey ?= ex)%Z eqn:E; try discriminate C.
    + apply Z.compare_eq in E. subst ey.
      rewrite Z.min_id, Z.sub_diag, Z.pow_0_r, !Z.mul_1_r.
      change (Pos.compare_cont Eq my mx) with (Pos.compare my mx) in C.
      rewrite Pos.compare_lt_iff in C. lia.
    + change (ey < ex)%Z in E.
      pose proof (larger_exponent_larger_magnitude mx ex my ey VX VY E).
      assert (M : Z.min ex ey = ey) by (apply Z.min_r; lia).
      rewrite M, Z.sub_diag, Z.pow_0_r, Z.mul_1_r. lia.
Qed.

(** [b < v] makes [v - b < 0] false. *)
Lemma sub_not_negative (v b : float) :
  (b <? v)%float = true -> (v - b <? 0)%float = false.
Proof.
  rewrite !ltb_spec, sub_spec. unfold SFltb, SF64sub. intros L.
  change (Prim2SF 0) with (S754_zero false).
  destruct (SFcompare (Prim2SF b) (Prim2SF v)) as [[]|] eqn:C;
    try discriminate L.
  pose proof (SFsub_not_negative (Prim2SF v) (Prim2SF b)
                (Prim2SF_valid v) (Prim2SF_valid b) C) as N.
  destruct (SFcompare (SFsub _ _ _ _) _) as [[]|]; try reflexivity.
  exfalso. apply N. reflexivity.
Qed.

(** [undefined - x < 0] is false. *)
Lemma nan_sub_not_negative (x : float) : (nan - x <? 0)%float = false.
Proof.
  rewrite ltb_spec, sub_spec. reflexivity.
Qed.

(** A positive number divided by +0 is +Infinity. *)
Lemma div_positive_by_zero (x : float) :
  (0 <? x)%float = true -> (x / 0)%float = infinity.
Proof.
  rewrite ltb_spec. unfold SFltb. intros P.
  apply Prim2SF_inj. rewrite div_spec. unfold SF64div.
  change (Prim2SF 0) with (S754_zero false) in *.
  change (Prim2SF infinity) with (S754_infinity false).
  destruct (Prim2SF x) as [sx|sx| |sx mx ex]; simpl in *;
    try discriminate P; destruct sx; try discriminate P; reflexivity.
Qed.

End FloatArith.

(** ** The clamps and range tests of the validation code *)

Module Ranges.

Import FloatOrder.

Lemma inRange_comparable lo hi v :
  AdaptivePPG.inRange lo hi v = true -> comparable v.
Proof.
  unfold AdaptivePPG.inRange. intros E. apply andb_prop in E.
  destruct E as [E _]. eapply leb_comparable_r; eauto.
Qed.

Lemma inRange_isNaN lo hi v :
  JS.isNaN v = true -> AdaptivePPG.inRange lo hi v = false.
Proof.
  intros N. destruct (AdaptivePPG.inRange lo hi v) eqn:E; auto.
  apply inRange_comparable in E. apply isNaN_false in E. congruence.
Qed.

Lemma Math_max_cases a b :
  comparable a -> comparable b ->
  (JS.Math_max a b = a /\ (b <=? a)%float = true)
  \/ (JS.Math_max a b = b /\ (a <=? b)%float = true).
Proof.
  intros Ha Hb. unfold JS.Math_max.
  rewrite (proj2 (isNaN_false a) Ha), (proj2 (isNaN_false b) Hb). simpl.
  destruct (a <? b)%float eqn:E1.
  - right. split; auto. apply ltb_leb; auto.
  - destruct (b <? a)%float eqn:E2.
    + left. split; auto. apply ltb_leb; auto.
    + destruct (not_ltb_eq a b Ha Hb E1 E2) as [Eab Eba].
      destruct (get_sign a).
      * right. split; auto. apply leb_cmp; auto.
      * left. split; auto. apply leb_cmp; auto.
Qed.

Lemma Math_min_cases a b :
  comparable a -> comparable b ->
  (JS.Math_min a b = a /\ (a <=? b)%float = true)
  \/ (JS.Math_min a b = b /\ (b <=? a)%float = true).
Proof.
  intros Ha Hb. unfold JS.Math_min.
  rewrite (proj2 (isNaN_false a) Ha), (proj2 (isNaN_false b) Hb). simpl.
  destruct (a <? b)%float eqn:E1.
  - left. split; auto. apply ltb_leb; auto.
  - destruct (b <? a)%float eqn:E2.
    + right. split; auto. apply ltb_leb; auto.
    + destruct (not_ltb_eq a b Ha Hb E1 E2) as [Eab Eba].
      destruct (get_sign a).
      * left. split; auto. apply leb_cmp; auto.
      * right. split; auto. apply leb_cmp; auto.
Qed.

Lemma comparable_75 : comparable 75%float.
Proof. apply isNaN_false. reflexivity. Qed.

Lemma comparable_100 : comparable 100%float.
Proof. apply isNaN_false. reflexivity. Qed.

(** The clamp of line 422 lands in [75, 100] on every number. *)
Lemma clampSpO2_band s :
  JS.isNaN s = false ->
  AdaptivePPG.inRange 75 100 (AdaptivePPG.clampSpO2 s) = true.
Proof.
  intros N. apply isNaN_false in N.
  unfold AdaptivePPG.clampSpO2, AdaptivePPG.inRange.
  destruct (Math_max_cases 75 s comparable_75 N) as [[-> L]|[-> L]].
  - reflexivity.
  - destruct (Math_min_cases 100 s comparable_100 N) as [[-> L2]|[-> L2]].
    + reflexivity.
    + rewrite L, L2. reflexivity.
Qed.

(** A NaN estimate goes through the clamp unchanged. *)
Lemma clampSpO2_nan s :
  JS.isNaN s = true -> AdaptivePPG.clampSpO2 s = nan.
Proof.
  intros N. unfold AdaptivePPG.clampSpO2, JS.Math_max.
  rewrite N. reflexivity.
Qed.

Lemma orZero_cases x :
  (JS.orZero x = 0%float) \/ (JS.orZero x = x /\ JS.isNaN x = false).
Proof.
  unfold JS.orZero. destruct (JS.isNaN x); simpl; auto.
  destruct (x =? 0)%float; auto.
Qed.

End Ranges.

(** ** validateVitalSigns *)

Module Validation.

Import FloatOrder Ranges AdaptivePPG.

Lemma validSystolicOf_comparable lv s :
  pressureOrdered lv -> comparable (validSystolicOf lv s).
Proof.
  unfold validSystolicOf, pressureOrdered. intros P.
  destruct (inRange 90 180 s) eqn:E.
  - eapply inRange_comparable; eauto.
  - eapply ltb_comparable_r; eauto.
Qed.

Lemma validDiastolicOf_comparable lv d :
  pressureOrdered lv -> comparable (validDiastolicOf lv d).
Proof.
  unfold validDiastolicOf, pressureOrdered. intros P.
  destruct (inRange 60 120 d) eqn:E.
  - eapply inRange_comparable; eauto.
  - eapply ltb_comparable_l; eauto.
Qed.

Lemma validateVitalSigns_rollback lv b s d :
  (validSystolicOf lv s <=? validDiastolicOf lv d)%float = true ->
  v_systolic (fst (validateVitalSigns lv b s d)) = lastValidSystolic lv
  /\ v_diastolic (fst (validateVitalSigns lv b s d)) = lastValidDiastolic lv
  /\ snd (validateVitalSigns lv b s d) = lv.
Proof.
  unfold validateVitalSigns, validSystolicOf, validDiastolicOf.
  intros E. rewrite E. simpl. auto.
Qed.

Lemma validateVitalSigns_accept lv b s d :
  (validSystolicOf lv s <=? validDiastolicOf lv d)%float = false ->
  v_systolic (fst (validateVitalSigns lv b s d)) = validSystolicOf lv s
  /\ v_diastolic (fst (validateVitalSigns lv b s d)) = validDiastolicOf lv d
  /\ lastValidSystolic (snd (validateVitalSigns lv b s d)) = validSystolicOf lv s
  /\ lastValidDiastolic (snd (validateVitalSigns lv b s d)) = validDiastolicOf lv d.
Proof.
  unfold validateVitalSigns, validSystolicOf, validDiastolicOf.
  intros E. rewrite E. simpl. auto.
Qed.

(** Ordered last valid pressures give ordered output and stay ordered. *)
Lemma validateVitalSigns_ordered lv b s d :
  pressureOrdered lv ->
  (v_diastolic (fst (validateVitalSigns lv b s d))
     <? v_systolic (fst (validateVitalSigns lv b s d)))%float = true
  /\ pressureOrdered (snd (validateVitalSigns lv b s d)).
Proof.
  intros P.
  destruct (validSystolicOf lv s <=? validDiastolicOf lv d)%float eqn:E.
  - destruct (validateVitalSigns_rollback lv b s d E) as (-> & -> & ->).
    split; exact P.
  - destruct (validateVitalSigns_accept lv b s d E) as (E1 & E2 & E3 & E4).
    assert (L : (validDiastolicOf lv d <? validSystolicOf lv s)%float = true).
    { apply leb_false_ltb; auto.
      - apply validSystolicOf_comparable; auto.
      - apply validDiastolicOf_comparable; auto. }
    unfold pressureOrdered. rewrite E1, E2, E3, E4. auto.
Qed.

Lemma validateVitalSigns_bpm lv b s d :
  v_bpm (fst (validateVitalSigns lv b s d)) = validBpmOf lv b
  /\ (lastValidBpm (snd (validateVitalSigns lv b s d)) = validBpmOf lv b
      \/ snd (validateVitalSigns lv b s d) = lv).
Proof.
  unfold validateVitalSigns, validBpmOf.
  destruct (_ <=? _)%float; simpl; auto.
Qed.

Lemma validBpmOf_band lv b :
  rateInBand (lastValidBpm lv) -> rateInBand (validBpmOf lv b).
Proof.
  unfold validBpmOf, rateInBand. intros R.
  destruct (inRange 40 200 b) eqn:E; auto.
  destruct (orZero_cases (lastValidBpm lv)) as [-> | [-> N]].
  - left. reflexivity.
  - exact R.
Qed.

Lemma validateVitalSigns_rate lv b s d :
  rateInBand (lastValidBpm lv) ->
  rateInBand (v_bpm (fst (validateVitalSigns lv b s d)))
  /\ rateInBand (lastValidBpm (snd (validateVitalSigns lv b s d))).
Proof.
  intros R. destruct (validateVitalSigns_bpm lv b s d) as [E1 [E2 | E2]];
    rewrite E1, E2; split; auto using validBpmOf_band.
Qed.

End Validation.

(** ** The adaptive processor, frame by frame *)

Module AdaptiveFacts.

Import FloatOrder Ranges Validation AdaptivePPG.

Section Frame.

Variable H : Helpers.

Lemma processFrame_gated st img now :
  insufficientSignal (processingSettings st) (sampleOf st img) = true ->
  processFrame H st img now = (noReading, resetBuffers st (extractorAfter st img)).
Proof.
  unfold processFrame, sampleOf, extractorAfter.
  destruct (SignalExtractor.extractChannels _ _) as [ch sx]. simpl.
  intros ->. reflexivity.
Qed.

Lemma processFrame_passed st img now :
  insufficientSignal (processingSettings st) (sampleOf st img) = false ->
  processFrame H st img now =
  processAccepted H st (extractorAfter st img) (sampleOf st img) now.
Proof.
  unfold processFrame, sampleOf, extractorAfter.
  destruct (SignalExtractor.extractChannels _ _) as [ch sx]. simpl.
  intros ->. reflexivity.
Qed.

(** The vitals of an accepted frame are those of [validateVitalSigns]. *)
Lemma processAccepted_vitals st sx ch now :
  exists b s d,
    let v := validateVitalSigns (lastValid st) b s d in
    bpm (fst (processAccepted H st sx ch now)) = v_bpm (fst v)
    /\ systolic (fst (processAccepted H st sx ch now)) = v_systolic (fst v)
    /\ diastolic (fst (processAccepted H st sx ch now)) = v_diastolic (fst v)
    /\ lastValid (snd (processAccepted H st sx ch now)) = snd v.
Proof.
  unfold processAccepted. name_calls. simpl.
  match goal with
  | E : validateVitalSigns _ ?b ?s ?d = _ |- _ =>
      exists b, s, d; rewrite E
  end.
  simpl. auto.
Qed.

(** The emitted SpO2 is the clamp of what [calculateSpO2] returned. *)
Lemma processAccepted_spo2 st sx ch now :
  exists e red ir,
    spo2 (fst (processAccepted H st sx ch now)) =
    clampSpO2 (spo2_value (fst (calculateSpO2 H e red ir))).
Proof.
  unfold processAccepted. name_calls. simpl.
  match goal with
  | E : calculateSpO2 H ?e ?r ?i = _ |- _ => exists e, r, i; rewrite E
  end.
  reflexivity.
Qed.

(** The thresholds after an accepted frame: untouched, or what
    [applyPrediction] made of a prediction. *)
Lemma processAccepted_settings st sx ch now :
  processingSettings (snd (processAccepted H st sx ch now)) = processingSettings st
  \/ exists o,
       processingSettings (snd (processAccepted H st sx ch now)) =
       applyPrediction (processingSettings st) o.
Proof.
  unfold processAccepted. name_calls. simpl.
  match goal with
  | E : (if ?c then _ else _) = _ |- _ => destruct c
  end.
  - match goal with
    | E : updateSettingsWithML _ _ _ _ _ _ = _ |- _ =>
        unfold updateSettingsWithML in E; revert E
    end.
    name_calls.
    match goal with
    | |- context [match ?o with Some _ => _ | None => _ end] => destruct o
    end; intros E; injection E as <- <-; eauto.
  - match goal with
    | E : (_, _) = (_, _) |- _ => injection E as <- <-
    end.
    auto.
Qed.

(** With an empty history, the readings of the snapshot are the single
    reading stamped with the clock value of the call. *)
Lemma processAccepted_first_reading st sx ch now :
  st_readings st = [] ->
  exists v,
    readings (fst (processAccepted H st sx ch now)) =
    [{| timestamp := now; value := v |}].
Proof.
  intros E. unfold processAccepted. rewrite E. name_calls. simpl.
  match goal with
  | |- context [if ?b then _ else _] => destruct b
  end; eexists; reflexivity.
Qed.

End Frame.

End AdaptiveFacts.

(** ** The adaptive processor over a session *)

Module AdaptiveSession.

Import FloatOrder Ranges Validation AdaptivePPG AdaptiveFacts.

(** An invariant of [processFrame] holds along every session, and every
    snapshot has the property the invariant gives. *)
Lemma runFrom_invariant (H : Helpers)
    (Inv : state H -> Prop) (P : Snapshot -> Prop) :
  (forall st img now,
      Inv st ->
      P (fst (processFrame H st img now))
      /\ Inv (snd (processFrame H st img now))) ->
  (forall st settings, Inv st -> Inv (updateSensitivitySettings H st settings)) ->
  forall calls i clock st,
    Inv st ->
    Forall P (fst (runFrom H i clock st calls))
    /\ Inv (snd (runFrom H i clock st calls)).
Proof.
  intros Step Upd.
  induction calls as [|[f|settings] rest IH]; intros i clock st I;
    cbn [runFrom].
  - split; [constructor | exact I].
  - destruct (Step st f (clock i) I) as [Pf If].
    destruct (processFrame H st f (clock i)) as [snap st1]. simpl in *.
    destruct (IH (S i) clock st1 If) as [Pr Ir].
    destruct (runFrom H (S i) clock st1 rest) as [snaps st2]. simpl in *.
    split; [constructor; assumption | assumption].
  - apply IH. apply Upd. exact I.
Qed.

Lemma processFrame_cases (H : Helpers) (st : state H) img now :
  (insufficientSignal (processingSettings st) (sampleOf st img) = true
   /\ processFrame H st img now =
      (noReading, resetBuffers st (extractorAfter st img)))
  \/ (insufficientSignal (processingSettings st) (sampleOf st img) = false
      /\ processFrame H st img now =
         processAccepted H st (extractorAfter st img) (sampleOf st img) now).
Proof.
  destruct (insufficientSignal (processingSettings st) (sampleOf st img)) eqn:E.
  - left. split; auto. apply processFrame_gated; auto.
  - right. split; auto. apply processFrame_passed; auto.
Qed.

Lemma processFrame_pressures (H : Helpers) (st : state H) img now :
  pressureOrdered (lastValid st) ->
  pressuresConsistent (systolic (fst (processFrame H st img now)))
                      (diastolic (fst (processFrame H st img now)))
  /\ pressureOrdered (lastValid (snd (processFrame H st img now))).
Proof.
  intros P. destruct (processFrame_cases H st img now) as [[_ ->]|[_ ->]].
  - simpl. split; [left; auto | exact P].
  - destruct (processAccepted_vitals H st (extractorAfter st img)
                (sampleOf st img) now) as (b & s & d & _ & Es & Ed & El).
    rewrite Es, Ed, El.
    destruct (validateVitalSigns_ordered (lastValid st) b s d P) as [O1 O2].
    split; [right; exact O1 | exact O2].
Qed.

Lemma pressureOrdered_init (H : Helpers) (e : ext H) :
  pressureOrdered (lastValid (init H e)).
Proof. reflexivity. Qed.



Lemma processFrame_spo2_rate (H : Helpers) (st : state H) img now :
  (forall e r i, JS.isNaN (spo2_value (fst (calculateSpO2 H e r i))) = false) ->
  rateInBand (lastValidBpm (lastValid st)) ->
  (saturationInBand (spo2 (fst (processFrame H st img now)))
   /\ rateInBand (bpm (fst (processFrame H st img now))))
  /\ rateInBand (lastValidBpm (lastValid (snd (processFrame H st img now)))).
Proof.
  intros Num R. destruct (processFrame_cases H st img now) as [[_ ->]|[_ ->]].
  - simpl. repeat split; [left; reflexivity | left; reflexivity | exact R].
  - destruct (processAccepted_vitals H st (extractorAfter st img)
                (sampleOf st img) now) as (b & s & d & Eb & _ & _ & El).
    destruct (processAccepted_spo2 H st (extractorAfter st img)
                (sampleOf st img) now) as (e & r & i & Es).
    rewrite Eb, El, Es.
    destruct (validateVitalSigns_rate (lastValid st) b s d R) as [R1 R2].
    repeat split; auto.
    right. apply clampSpO2_band. apply Num.
Qed.





Lemma applyPrediction_safe c o :
  safeSettings c = true -> safeSettings (applyPrediction c o) = true.
Proof.
  unfold applyPrediction, safeSettings. intros S.
  destruct (negb (JS.isNaN (JS.at_ o 0)) && negb (JS.isNaN (JS.at_ o 1))
            && negb (JS.isNaN (JS.at_ o 2))); [|exact S].
  apply andb_prop in S. destruct S as [S S3].
  apply andb_prop in S. destruct S as [S1 S2]. simpl.
  destruct (inRange 10 30 (JS.at_ o 0)) eqn:E1;
    destruct (inRange 0.3 0.7 (JS.at_ o 1)) eqn:E2;
    destruct (inRange 0.1 0.5 (JS.at_ o 2)) eqn:E3;
    rewrite ?E1, ?E2, ?E3, ?S1, ?S2, ?S3; reflexivity.
Qed.

Lemma applyPrediction_nan c o :
  JS.isNaN (JS.at_ o 0) || JS.isNaN (JS.at_ o 1) || JS.isNaN (JS.at_ o 2) = true ->
  applyPrediction c o = c.
Proof.
  unfold applyPrediction.
  destruct (JS.isNaN (JS.at_ o 0)), (JS.isNaN (JS.at_ o 1)),
    (JS.isNaN (JS.at_ o 2)); simpl; intros; congruence.
Qed.

Lemma applyPrediction_out_of_range c o :
  (inRange 10 30 (JS.at_ o 0) = false ->
   MIN_RED_VALUE (applyPrediction c o) = MIN_RED_VALUE c)
  /\ (inRange 0.3 0.7 (JS.at_ o 1) = false ->
      PEAK_THRESHOLD_FACTOR (applyPrediction c o) = PEAK_THRESHOLD_FACTOR c)
  /\ (inRange 0.1 0.5 (JS.at_ o 2) = false ->
      MIN_VALID_PIXELS_RATIO (applyPrediction c o) = MIN_VALID_PIXELS_RATIO c).
Proof.
  unfold applyPrediction.
  destruct (negb (JS.isNaN (JS.at_ o 0)) && negb (JS.isNaN (JS.at_ o 1))
            && negb (JS.isNaN (JS.at_ o 2))); simpl; auto.
  repeat split; intros ->; reflexivity.
Qed.

Lemma fold_applyPrediction_safe predictions c :
  safeSettings c = true ->
  safeSettings (fold_left applyPrediction predictions c) = true.
Proof.
  revert c. induction predictions as [|o rest IH]; intros c S; simpl; auto.
  apply IH. apply applyPrediction_safe. exact S.
Qed.

Lemma processFrame_settings (H : Helpers) (st : state H) img now :
  safeSettings (processingSettings st) = true ->
  safeSettings (processingSettings (snd (processFrame H st img now))) = true.
Proof.
  intros S. destruct (processFrame_cases H st img now) as [[_ ->]|[_ ->]].
  - exact S.
  - destruct (processAccepted_settings H st (extractorAfter st img)
                (sampleOf st img) now) as [-> | [o ->]]; auto.
    apply applyPrediction_safe. exact S.
Qed.

(** C9.  After any session of the adaptive processor, and after any
    sequence of predictions applied by the parameter adapter, the three
    adapted thresholds are inside their safe ranges; a prediction with a
    NaN (or missing) component changes no threshold, and a component
    outside its range leaves its threshold as it was. *)
Theorem adapted_thresholds_stay_safe (H : Helpers) (e : ext H)
    (clock : nat -> Z) (calls : list call)
    (predictions : list (list JS.number)) :
  safeSettings (processingSettings (snd (run H clock (init H e) calls))) = true
  /\ safeSettings (fold_left applyPrediction predictions initialProcessing) = true
  /\ (forall c o,
         JS.isNaN (JS.at_ o 0) || JS.isNaN (JS.at_ o 1) || JS.isNaN (JS.at_ o 2)
         = true ->
         applyPrediction c o = c)
  /\ (forall c o,
         (inRange 10 30 (JS.at_ o 0) = false ->
          MIN_RED_VALUE (applyPrediction c o) = MIN_RED_VALUE c)
         /\ (inRange 0.3 0.7 (JS.at_ o 1) = false ->
             PEAK_THRESHOLD_FACTOR (applyPrediction c o) = PEAK_THRESHOLD_FACTOR c)
         /\ (inRange 0.1 0.5 (JS.at_ o 2) = false ->
             MIN_VALID_PIXELS_RATIO (applyPrediction c o)
             = MIN_VALID_PIXELS_RATIO c)).
Proof.
  split; [|split; [|split]].
  - apply (runFrom_invariant H
             (fun st => safeSettings (processingSettings st) = true)
             (fun _ => True)).
    + intros st img now S. split; [exact I|].
      apply processFrame_settings. exact S.
    + intros st settings S. exact S.
    + reflexivity.
  - apply fold_applyPrediction_safe. reflexivity.
  - apply applyPrediction_nan.
  - apply applyPrediction_out_of_range.
Qed.

(** A prediction with a NaN component changes nothing; a red threshold of
    50 is refused while the two other components are taken. *)
Lemma adapted_thresholds_stay_safe_witness :
  applyPrediction initialProcessing [nan; 0.5; 0.3]%float = initialProcessing
  /\ MIN_RED_VALUE (applyPrediction initialProcessing [50; 0.5; 0.3]%float)
     = 15%float
  /\ PEAK_THRESHOLD_FACTOR (applyPrediction initialProcessing [50; 0.5; 0.3]%float)
     = 0.5%float.
Proof.
  pose proof (adapted_thresholds_stay_safe Fixtures.adaptiveHelpers tt
                (fun _ => 0%Z) [] []) as (_ & _ & N & R).
  split; [|split].
  - apply N. reflexivity.
  - apply (proj1 (R initialProcessing [50; 0.5; 0.3]%float)). reflexivity.
  - reflexivity.
Defined.

End AdaptiveSession.

(** ** The plain processor: the refractory gate *)

Module PlainFacts.

Import PPGProcessor.

Lemma intervalsOf_snoc ts t d :
  intervalsOf (ts ++ [t]) =
  match ts with
  | [] => []
  | _ => intervalsOf ts ++ [(t - last ts d)%Z]
  end.
Proof.
  induction ts as [|a [|b r] IH]; try reflexivity.
  change (intervalsOf ((a :: b :: r) ++ [t]))
    with ((b - a)%Z :: intervalsOf ((b :: r) ++ [t])).
  rewrite IH. reflexivity.
Qed.

Lemma intervalsOf_tl ts : intervalsOf (tl ts) = tl (intervalsOf ts).
Proof. destruct ts as [|a [|b r]]; reflexivity. Qed.

Lemma Forall_tl {A} (P : A -> Prop) l : Forall P l -> Forall P (tl l).
Proof. destruct 1; simpl; auto. Qed.

Lemma last_tl_default {A} (l : list A) d : last l d = d -> last (tl l) d = d.
Proof. destruct l as [|a [|b r]]; simpl; auto. Qed.

(** The history stays spaced when a time at least [minPeakDistance] after
    its last entry is pushed, with or without eviction. *)
Lemma push_capped_spaced ts lastPeak now :
  Forall (fun d => (minPeakDistance <= d)%Z) (intervalsOf ts) ->
  last ts lastPeak = lastPeak ->
  (minPeakDistance <= now - lastPeak)%Z ->
  Forall (fun d => (minPeakDistance <= d)%Z)
         (intervalsOf (JS.push_capped 10 ts now))
  /\ last (JS.push_capped 10 ts now) now = now.
Proof.
  intros S L G. unfold JS.push_capped.
  assert (S1 : Forall (fun d => (minPeakDistance <= d)%Z)
                      (intervalsOf (ts ++ [now]))).
  { rewrite (intervalsOf_snoc ts now lastPeak). destruct ts as [|a r].
    - constructor.
    - apply Forall_app. split; auto. constructor; [|constructor].
      rewrite L. exact G. }
  assert (L1 : last (ts ++ [now]) now = now) by apply last_last.
  destruct (10 <? List.length (ts ++ [now]))%nat.
  - split.
    + rewrite intervalsOf_tl. apply Forall_tl. exact S1.
    + apply last_tl_default. exact L1.
  - split; assumption.
Qed.

Section Gate.

Variable H : Helpers.

Lemma isRealPeak_too_soon lastPeak buf thr (e : ext H) v now :
  (now - lastPeak < minPeakDistance)%Z ->
  isRealPeak H lastPeak buf thr e v now = (false, thr, e).
Proof.
  intros G. unfold isRealPeak.
  destruct (Z.ltb_spec (now - lastPeak) minPeakDistance); [reflexivity|lia].
Qed.

Lemma isRealPeak_true lastPeak buf thr (e : ext H) v now thr' e' :
  isRealPeak H lastPeak buf thr e v now = (true, thr', e') ->
  (minPeakDistance <= now - lastPeak)%Z.
Proof.
  unfold isRealPeak.
  destruct (Z.ltb_spec (now - lastPeak) minPeakDistance); [discriminate|].
  intros _. assumption.
Qed.

(** What a frame does to the peak history. *)
Lemma processFrame_peaks (st : state H) img now :
  (peakTimes (snd (processFrame H st img now)) = peakTimes st
   /\ lastPeakTime (snd (processFrame H st img now)) = lastPeakTime st)
  \/ (peakTimes (snd (processFrame H st img now)) =
        JS.push_capped 10 (peakTimes st) now
      /\ lastPeakTime (snd (processFrame H st img now)) = now
      /\ (minPeakDistance <= now - lastPeakTime st)%Z).
Proof.
  unfold processFrame.
  destruct (quality (extractChannels img) <? qualityThreshold)%float;
    [left; auto|].
  name_calls. simpl.
  match goal with
  | E : isRealPeak _ _ _ _ _ _ _ = (?b, _, _) |- _ => destruct b
  end.
  - right. repeat split; auto.
    eapply isRealPeak_true; eauto.
  - left. auto.
Qed.

Lemma processFrame_peaksSpaced (st : state H) img now :
  peaksSpaced st -> peaksSpaced (snd (processFrame H st img now)).
Proof.
  intros [S L].
  destruct (processFrame_peaks st img now) as [[E1 E2] | (E1 & E2 & G)];
    unfold peaksSpaced; rewrite E1, E2.
  - split; assumption.
  - apply push_capped_spaced with (lastPeak := lastPeakTime st); assumption.
Qed.

Lemma runFrom_peaksSpaced (calls : list (call H)) :
  forall i clock (st : state H),
    peaksSpaced st -> peaksSpaced (snd (runFrom H i clock st calls)).
Proof.
  induction calls as [|[f|d] rest IH]; intros i clock st I; cbn [runFrom].
  - exact I.
  - pose proof (processFrame_peaksSpaced st f (clock i) I) as I1.
    destruct (processFrame H st f (clock i)) as [snap st1].
    specialize (IH (S i) clock st1 I1).
    destruct (runFrom H (S i) clock st1 rest) as [snaps st2]. exact IH.
  - apply IH. destruct I as [S L]. split; assumption.
Qed.

(** A frame of low quality: [processFrame] returns [null] and leaves the
    processor as it was. *)
Lemma processFrame_low_quality (st : state H) img now :
  (quality (extractChannels img) <? qualityThreshold)%float = true ->
  processFrame H st img now = (None, st).
Proof. unfold processFrame. intros ->. reflexivity. Qed.

End Gate.

(** C6.  In every session of the plain processor (frames and calibration
    data, in any order), any two consecutive entries of the peak-time
    history are at least [minPeakDistance] apart;
    a candidate arriving sooner than that after the last accepted peak is
    rejected by [isRealPeak] and leaves the history as it was. *)
Theorem accepted_peaks_are_spaced (H : Helpers) (e : ext H)
    (clock : nat -> Z) (calls : list (call H)) :
  Forall (fun d => (minPeakDistance <= d)%Z)
         (intervalsOf (peakTimes (snd (run H clock (init H e) calls))))
  /\ (forall lastPeak buf thr e' v now,
         (now - lastPeak < minPeakDistance)%Z ->
         isRealPeak H lastPeak buf thr e' v now = (false, thr, e'))
  /\ (forall (st : state H) img now,
         (now - lastPeakTime st < minPeakDistance)%Z ->
         peakTimes (snd (processFrame H st img now)) = peakTimes st).
Proof.
  split; [|split].
  - apply (runFrom_peaksSpaced H calls 0 clock (init H e)).
    split; [constructor | reflexivity].
  - intros. apply isRealPeak_too_soon. assumption.
  - intros st img now G.
    destruct (processFrame_peaks H st img now) as [[E _] | (_ & _ & G')];
      [exact E | lia].
Qed.

(** A candidate 100 ms after the last accepted peak is rejected. *)
Lemma accepted_peaks_are_spaced_witness :
  (1100 - 1000 < minPeakDistance)%Z
  /\ isRealPeak Fixtures.plainHelpers 1000 [1; 2; 5]%float 0%float tt 5%float 1100
     = (false, 0%float, tt).
Proof.
  assert (G : (1100 - 1000 < minPeakDistance)%Z) by reflexivity.
  split; [exact G|].
  apply (proj1 (proj2 (accepted_peaks_are_spaced Fixtures.plainHelpers tt
                         (fun _ => 0%Z) []))).
  exact G.
Defined.

End PlainFacts.

(** ** The plain processor: the newest sample is never a peak *)

Module PlainPeaks.

Import PPGProcessor.

Lemma at_nonneg xs (n : nat) : JS.at_ xs (Z.of_nat n) = nth n xs nan.
Proof.
  unfold JS.at_. destruct (Z.ltb_spec (Z.of_nat n) 0); [lia|].
  rewrite Nat2Z.id. reflexivity.
Qed.

(** With the newest sample [v] at the end of the buffer, the test
    [currentValue > signalBuffer[length - 2]] of [isRealPeak] and the test
    [derivative2 < 0] of [validatePeakShape] exclude each other. *)
Lemma newest_sample_slope front v :
  (2 <= List.length front)%nat ->
  let buf := front ++ [v] in
  (JS.at_ buf (Z.of_nat (List.length buf) - 2) <? v)%float = true ->
  (JS.at_ (JS.slice_last 4 buf) 3 - JS.at_ (JS.slice_last 4 buf) 2 <? 0)%float
  = false.
Proof.
  intros L buf B.
  assert (Len : List.length buf = S (List.length front))
    by (unfold buf; apply last_length).
  change 3%Z with (Z.of_nat 3). change 2%Z with (Z.of_nat 2).
  rewrite !at_nonneg. unfold JS.slice_last. rewrite !nth_skipn.
  destruct (Nat.eq_dec (List.length front) 2) as [E|E].
  - rewrite (nth_overflow buf (n := List.length buf - 4 + 3)) by lia.
    apply FloatArith.nan_sub_not_negative.
  - replace (List.length buf - 4 + 3)%nat with (List.length front) by lia.
    replace (List.length buf - 4 + 2)%nat with (List.length buf - 2)%nat by lia.
    unfold buf at 1. rewrite nth_middle.
    apply FloatArith.sub_not_negative.
    replace (Z.of_nat (List.length buf) - 2)%Z
      with (Z.of_nat (List.length buf - 2)) in B by lia.
    rewrite at_nonneg in B. exact B.
Qed.

Section NoPeak.

Variable H : Helpers.

(** [isRealPeak] on the sample just pushed always answers [false]. *)
Lemma isRealPeak_newest_sample lastPeak front thr (e : ext H) v now :
  isRealPeak H lastPeak (front ++ [v]) thr e v now = (false, thr, e).
Proof.
  unfold isRealPeak.
  destruct (now - lastPeak <? minPeakDistance)%Z; [reflexivity|].
  destruct (Nat.ltb_spec (List.length (front ++ [v])) 3) as [L|L];
    [reflexivity|].
  rewrite last_length in L. cbv zeta.
  destruct (JS.at_ (front ++ [v])
              (Z.of_nat (List.length (front ++ [v])) - 2) <? v)%float eqn:B.
  - assert (S := newest_sample_slope front v ltac:(lia) B).
    unfold validatePeakShape. cbv zeta. rewrite S.
    rewrite andb_false_r, andb_false_l, andb_false_r. reflexivity.
  - rewrite !andb_false_r. reflexivity.
Qed.

Lemma push_capped_newest (xs : list JS.number) v :
  exists front, JS.push_capped bufferSize xs v = front ++ [v].
Proof.
  destruct xs as [|x r].
  - exists []. reflexivity.
  - unfold JS.push_capped.
    destruct (bufferSize <? List.length ((x :: r) ++ [v]))%nat.
    + exists r. reflexivity.
    + exists (x :: r). reflexivity.
Qed.

(** No frame adds to the peak history. *)
Lemma processFrame_no_peak (st : state H) img now :
  peakTimes (snd (processFrame H st img now)) = peakTimes st
  /\ lastPeakTime (snd (processFrame H st img now)) = lastPeakTime st.
Proof.
  unfold processFrame.
  destruct (quality (extractChannels img) <? qualityThreshold)%float;
    [split; reflexivity|].
  destruct (lowPassFilter H _ _ _) as [filteredRed e1].
  destruct (normalizeSignal _ _) as [v baseline1].
  destruct (push_capped_newest (signalBuffer st) v) as [front ->].
  rewrite isRealPeak_newest_sample.
  name_calls. split; reflexivity.
Qed.

Lemma runFrom_no_peak (calls : list (call H)) :
  forall i clock (st : state H),
    peakTimes (snd (runFrom H i clock st calls)) = peakTimes st.
Proof.
  induction calls as [|[f|d] rest IH]; intros i clock st; cbn [runFrom].
  - reflexivity.
  - pose proof (proj1 (processFrame_no_peak st f (clock i))) as E.
    destruct (processFrame H st f (clock i)) as [snap st1].
    specialize (IH (S i) clock st1).
    destruct (runFrom H (S i) clock st1 rest) as [snaps st2].
    simpl in *. congruence.
  - rewrite IH. reflexivity.
Qed.

(** In every session of the plain processor the peak history stays
    empty. *)
Lemma session_no_peak (calls : list (call H)) (e : ext H) clock :
  peakTimes (snd (run H clock (init H e) calls)) = [].
Proof. unfold run. rewrite runFrom_no_peak. reflexivity. Qed.

(** The snapshot of a frame does not depend on the clock, nor on the
    readings kept so far. *)
Lemma processFrame_clock_free (st1 st2 : state H) img now1 now2 :
  sameButReadings st1 st2 ->
  fst (processFrame H st1 img now1) = fst (processFrame H st2 img now2)
  /\ sameButReadings (snd (processFrame H st1 img now1))
                     (snd (processFrame H st2 img now2)).
Proof.
  intros (E1 & E2 & E3 & E4 & E5 & E6 & E7 & E8 & E9).
  unfold processFrame.
  rewrite <- E1, <- E2, <- E3, <- E4, <- E5, <- E6, <- E7, <- E8, <- E9.
  destruct (quality (extractChannels img) <? qualityThreshold)%float.
  - split; [reflexivity|]. repeat split; assumption.
  - destruct (lowPassFilter H _ _ _) as [filteredRed e1].
    destruct (normalizeSignal _ _) as [v baseline1].
    destruct (push_capped_newest (signalBuffer st1) v) as [front ->].
    rewrite !isRealPeak_newest_sample.
    name_calls. split; [reflexivity|]. repeat split; reflexivity.
Qed.

Lemma setCalibrationData_same (st1 st2 : state H) d :
  sameButReadings st1 st2 ->
  sameButReadings (setCalibrationData H st1 d) (setCalibrationData H st2 d).
Proof.
  intros (E1 & E2 & E3 & E4 & E5 & E6 & E7 & E8 & E9).
  unfold sameButReadings. simpl. rewrite E9. repeat split; assumption.
Qed.

Lemma runFrom_clock_free (calls : list (call H)) :
  forall i j clock1 clock2 (st1 st2 : state H),
    sameButReadings st1 st2 ->
    fst (runFrom H i clock1 st1 calls) = fst (runFrom H j clock2 st2 calls).
Proof.
  induction calls as [|[f|d] rest IH]; intros i j clock1 clock2 st1 st2 A;
    cbn [runFrom].
  - reflexivity.
  - destruct (processFrame_clock_free st1 st2 f (clock1 i) (clock2 j) A)
      as [Es Ea].
    destruct (processFrame H st1 f (clock1 i)) as [snap1 st1'].
    destruct (processFrame H st2 f (clock2 j)) as [snap2 st2'].
    simpl in Es, Ea. subst snap2.
    specialize (IH (S i) (S j) clock1 clock2 st1' st2' Ea).
    destruct (runFrom H (S i) clock1 st1' rest) as [snaps1 ?].
    destruct (runFrom H (S j) clock2 st2' rest) as [snaps2 ?].
    simpl in *. congruence.
  - apply IH. apply setCalibrationData_same. exact A.
Qed.

Lemma sameButReadings_refl (st : state H) : sameButReadings st st.
Proof. repeat split. Qed.

End NoPeak.

End PlainPeaks.

(** ** The clock as an input of the pipeline *)

Module Clock.

Import AdaptivePPG AdaptiveFacts.

Arguments SignalExtractor.extractChannels : simpl never.
#[local] Opaque SignalExtractor.extractChannels.

(** The signal extractor over five fingertip frames. *)
Lemma warm_chain :
  SignalExtractor.extractChannels SignalExtractor.init Fixtures.fingerFrame
  = Fixtures.warm1
  /\ SignalExtractor.extractChannels (snd Fixtures.warm1) Fixtures.fingerFrame
     = Fixtures.warm2
  /\ SignalExtractor.extractChannels (snd Fixtures.warm2) Fixtures.fingerFrame
     = Fixtures.warm3
  /\ SignalExtractor.extractChannels (snd Fixtures.warm3) Fixtures.fingerFrame
     = Fixtures.warm4
  /\ SignalExtractor.extractChannels (snd Fixtures.warm4) Fixtures.fingerFrame
     = Fixtures.warm5.
Proof. vm_compute. repeat split; reflexivity. Qed.

Section Runs.

Variable H : Helpers.

Lemma runFrom_cons i clock (st : state H) f rest snap st1 :
  processFrame H st f (clock i) = (snap, st1) ->
  runFrom H i clock st (Frame f :: rest) =
  (snap :: fst (runFrom H (S i) clock st1 rest),
   snd (runFrom H (S i) clock st1 rest)).
Proof.
  intros E. cbn [runFrom]. rewrite E.
  destruct (runFrom H (S i) clock st1 rest). reflexivity.
Qed.

Lemma runFrom_last i clock (st : state H) f :
  fst (runFrom H i clock st [Frame f]) = [fst (processFrame H st f (clock i))].
Proof.
  cbn [runFrom]. destruct (processFrame H st f (clock i)). reflexivity.
Qed.

(** A frame the extractor scores below the floor, on the initial
    thresholds. *)
Lemma processFrame_cold (st : state H) img now w :
  processingSettings st = initialProcessing ->
  SignalExtractor.extractChannels (signalExtractor st) img = w ->
  insufficientSignal initialProcessing (fst w) = true ->
  processFrame H st img now = (noReading, resetBuffers st (snd w)).
Proof.
  intros C E G. rewrite processFrame_gated.
  - unfold extractorAfter. rewrite E. reflexivity.
  - unfold sampleOf. rewrite E, C. exact G.
Qed.

(** A frame the extractor scores above the floor, on the initial
    thresholds and an empty history. *)
Lemma processFrame_warm (st : state H) img now w :
  processingSettings st = initialProcessing ->
  SignalExtractor.extractChannels (signalExtractor st) img = w ->
  insufficientSignal initialProcessing (fst w) = false ->
  st_readings st = [] ->
  exists v,
    readings (fst (processFrame H st img now)) =
    [{| timestamp := now; value := v |}].
Proof.
  intros C E G R. rewrite processFrame_passed.
  - apply processAccepted_first_reading. exact R.
  - unfold sampleOf. rewrite E, C. exact G.
Qed.

(** Five fingertip frames from the initial state: four gated snapshots,
    then one whose reading carries the clock value of the fifth call. *)
Lemma five_frames_readings (e : ext H) clock :
  exists v,
    map readings
        (fst (run H clock (init H e) (map Frame (repeat Fixtures.fingerFrame 5))))
    = [[]; []; []; []; [{| timestamp := clock 4%nat; value := v |}]].
Proof.
  destruct warm_chain as (W1 & W2 & W3 & W4 & W5).
  set (s0 := init H e).
  set (s1 := resetBuffers s0 (snd Fixtures.warm1)).
  set (s2 := resetBuffers s1 (snd Fixtures.warm2)).
  set (s3 := resetBuffers s2 (snd Fixtures.warm3)).
  set (s4 := resetBuffers s3 (snd Fixtures.warm4)).
  assert (P0 : processFrame H s0 Fixtures.fingerFrame (clock 0%nat)
               = (noReading, s1))
    by (apply processFrame_cold; [reflexivity | exact W1 | reflexivity]).
  assert (P1 : processFrame H s1 Fixtures.fingerFrame (clock 1%nat)
               = (noReading, s2))
    by (apply processFrame_cold; [reflexivity | exact W2 | reflexivity]).
  assert (P2 : processFrame H s2 Fixtures.fingerFrame (clock 2%nat)
               = (noReading, s3))
    by (apply processFrame_cold; [reflexivity | exact W3 | reflexivity]).
  assert (P3 : processFrame H s3 Fixtures.fingerFrame (clock 3%nat)
               = (noReading, s4))
    by (apply processFrame_cold; [reflexivity | exact W4 | reflexivity]).
  destruct (processFrame_warm s4 Fixtures.fingerFrame (clock 4%nat)
              Fixtures.warm5) as [v P4];
    [reflexivity | exact W5 | reflexivity | reflexivity |].
  exists v. unfold run.
  pose (f := Fixtures.fingerFrame).
  change (map Frame (repeat Fixtures.fingerFrame 5))
    with [Frame f; Frame f; Frame f; Frame f; Frame f].
  fold f in P0, P1, P2, P3, P4.
  rewrite (runFrom_cons 0 clock s0 f [Frame f; Frame f; Frame f; Frame f]
             noReading s1 P0).
  rewrite (runFrom_cons 1 clock s1 f [Frame f; Frame f; Frame f] noReading s2 P1).
  rewrite (runFrom_cons 2 clock s2 f [Frame f; Frame f] noReading s3 P2).
  rewrite (runFrom_cons 3 clock s3 f [Frame f] noReading s4 P3).
  rewrite (runFrom_last 4 clock s4 f).
  cbn [fst map]. rewrite P4. reflexivity.
Qed.

(** The snapshots of a run depend on the clock only through the values
    read during the run. *)
Lemma runFrom_clock calls : forall i clock1 clock2 (st : state H),
  (forall j, (i <= j < i + List.length calls)%nat -> clock1 j = clock2 j) ->
  runFrom H i clock1 st calls = runFrom H i clock2 st calls.
Proof.
  induction calls as [|[f|settings] rest IH]; intros i clock1 clock2 st A;
    cbn [runFrom].
  - reflexivity.
  - rewrite (A i) by (simpl; lia).
    destruct (processFrame H st f (clock2 i)) as [snap st1].
    rewrite (IH (S i) clock1 clock2 st1); [reflexivity|].
    intros j B. apply A. simpl. lia.
  - apply IH. intros j B. apply A. simpl. lia.
Qed.

End Runs.




End Clock.

(** ** Frames without a usable signal *)

Module NoFinger.

Import AdaptivePPG AdaptiveFacts.

(** C1, as the code has it.  For a frame whose extracted quality is below
    the quality threshold or whose red value is below MIN_RED_VALUE, the
    adaptive [processFrame] empties the red buffer, the infrared buffer,
    the readings and the peak times and returns the all-zero snapshot; the
    plain [processFrame] on a frame below its quality threshold returns
    [null] and leaves the processor as it was. *)
Theorem insufficient_signal_frame :
  (forall (H : Helpers) (st : state H) (img : ImageData) (now : Z),
      insufficientSignal (processingSettings st) (sampleOf st img) = true ->
      let r := processFrame H st img now in
      redBuffer (snd r) = [] /\ irBuffer (snd r) = []
      /\ st_readings (snd r) = [] /\ peakTimes (snd r) = []
      /\ fst r = noReading
      /\ bpm (fst r) = 0%float /\ spo2 (fst r) = 0%float
      /\ systolic (fst r) = 0%float /\ diastolic (fst r) = 0%float
      /\ hasArrhythmia (fst r) = false
      /\ arrhythmiaType (fst r) = "Normal"%string
      /\ signalQuality (fst r) = 0%float)
  /\ (forall (H : PPGProcessor.Helpers) (st : PPGProcessor.state H)
             (img : ImageData) (now : Z),
         (PPGProcessor.quality (PPGProcessor.extractChannels img)
            <? PPGProcessor.qualityThreshold)%float = true ->
         PPGProcessor.processFrame H st img now = (None, st)).
Proof.
  split.
  - intros H st img now G r. subst r.
    rewrite (processFrame_gated H st img now G). simpl.
    repeat split; reflexivity.
  - intros H st img now Q. apply PlainFacts.processFrame_low_quality. exact Q.
Qed.

(** The first fingertip frame of a session of the adaptive processor is
    below the quality threshold and yields the all-zero snapshot. *)
Lemma insufficient_signal_frame_witness :
  let H := Fixtures.adaptiveHelpers in
  insufficientSignal (processingSettings (init H tt))
                     (sampleOf (init H tt) Fixtures.fingerFrame) = true
  /\ fst (processFrame H (init H tt) Fixtures.fingerFrame 1000) = noReading.
Proof.
  intros H.
  assert (G : insufficientSignal (processingSettings (init H tt))
                (sampleOf (init H tt) Fixtures.fingerFrame) = true)
    by (vm_compute; reflexivity).
  split; [exact G|].
  apply (proj1 insufficient_signal_frame H (init H tt)
               Fixtures.fingerFrame 1000%Z G).
Defined.

(** C1, as stated, fails on the plain processor: after one fingertip
    frame, a saturated frame is below the quality threshold, yet
    [processFrame] returns [null] and the red buffer keeps its sample. *)
Lemma plain_processor_returns_null :
  let H := Fixtures.plainHelpers in
  let st := snd (PPGProcessor.processFrame H (PPGProcessor.init H tt)
                   Fixtures.fingerFrame 1000) in
  (PPGProcessor.quality (PPGProcessor.extractChannels Fixtures.saturatedFrame)
     <? PPGProcessor.qualityThreshold)%float = true
  /\ fst (PPGProcessor.processFrame H st Fixtures.saturatedFrame 1033) = None
  /\ PPGProcessor.redBuffer
       (snd (PPGProcessor.processFrame H st Fixtures.saturatedFrame 1033))
     = [100%float].
Proof. vm_compute. repeat split; reflexivity. Qed.

End NoFinger.

(** ** Divisions and their guards *)

Module Divisions.

(** No pixel counted: the two averages of the plain [extractChannels] are
    0. *)
Lemma channelsOf_no_pixel (s : PPGProcessor.scan) :
  (PPGProcessor.pixelCount s <= 0)%Z ->
  PPGProcessor.red (PPGProcessor.channelsOf s) = 0%float
  /\ PPGProcessor.ir (PPGProcessor.channelsOf s) = 0%float.
Proof.
  intros Z0. unfold PPGProcessor.channelsOf. simpl.
  destruct (Z.ltb_spec 0 (PPGProcessor.pixelCount s)); [lia|auto].
Qed.

(** Too few accepted pixels: the extractor answers before any division. *)
Lemma extractChannels_few_pixels st img :
  (SignalExtractor.pixelCount (SignalExtractor.scanRegion img)
   < SignalExtractor.minValidPixels)%Z ->
  SignalExtractor.extractChannels st img
  = (SignalExtractor.noFinger, SignalExtractor.countFrame st).
Proof.
  intros F. unfold SignalExtractor.extractChannels.
  destruct (Z.ltb_spec
              (SignalExtractor.pixelCount (SignalExtractor.scanRegion img))
              SignalExtractor.minValidPixels); [reflexivity|lia].
Qed.

(** A zero DC component: the perfusion index is 0. *)
Lemma calculatePerfusionIndexSafe_zero_dc signal :
  (JS.sum signal / JS.length signal =? 0)%float = true ->
  UltraAdvancedPPGProcessor.calculatePerfusionIndexSafe signal = 0%float.
Proof.
  intros D. unfold UltraAdvancedPPGProcessor.calculatePerfusionIndexSafe.
  destruct signal; [reflexivity|]. rewrite D. reflexivity.
Qed.

(** With a zero infrared average and a positive red average, the
    dominance ratio is Infinity, which is not below the dominance
    threshold. *)
Lemma zero_infrared_dominance (s : SignalExtractor.scan) :
  SignalExtractor.avgIr s = 0%float ->
  (0 <? SignalExtractor.avgRed s)%float = true ->
  (SignalExtractor.minValidPixels <= SignalExtractor.pixelCount s)%Z ->
  SignalExtractor.redDominance s = infinity
  /\ SignalExtractor.accepted s = true.
Proof.
  intros I R P.
  assert (D : SignalExtractor.redDominance s = infinity).
  { unfold SignalExtractor.redDominance. rewrite I.
    apply FloatArith.div_positive_by_zero. exact R. }
  split; [exact D|].
  unfold SignalExtractor.accepted. rewrite D.
  destruct (Z.ltb_spec (SignalExtractor.pixelCount s)
              SignalExtractor.minValidPixels); [lia|reflexivity].
Qed.

(** C7, as the code has it.  The pixel-count averages are guarded, also
    for a frame contributing no pixel: the plain [extractChannels] returns
    red 0 and ir 0 when no pixel was counted, and the signal extractor
    returns the all-zero sample, before any division, when fewer than
    [minValidPixels] pixels are accepted; the DC division of
    [calculatePerfusionIndexSafe] returns 0 on a zero DC component.  The
    dominance ratio [avgRed / avgIr] is not guarded: with a zero infrared
    average and a positive red average it is Infinity, and the frame
    passes the dominance check. *)
Theorem guarded_divisions :
  (forall img : ImageData,
      (PPGProcessor.pixelCount (PPGProcessor.scanRegion img) <= 0)%Z ->
      PPGProcessor.red (PPGProcessor.extractChannels img) = 0%float
      /\ PPGProcessor.ir (PPGProcessor.extractChannels img) = 0%float)
  /\ (forall st img,
         (SignalExtractor.pixelCount (SignalExtractor.scanRegion img)
          < SignalExtractor.minValidPixels)%Z ->
         SignalExtractor.extractChannels st img
         = (SignalExtractor.noFinger, SignalExtractor.countFrame st))
  /\ (forall signal,
         (JS.sum signal / JS.length signal =? 0)%float = true ->
         UltraAdvancedPPGProcessor.calculatePerfusionIndexSafe signal = 0%float)
  /\ (forall s : SignalExtractor.scan,
         SignalExtractor.avgIr s = 0%float ->
         (0 <? SignalExtractor.avgRed s)%float = true ->
         (SignalExtractor.minValidPixels <= SignalExtractor.pixelCount s)%Z ->
         SignalExtractor.redDominance s = infinity
         /\ SignalExtractor.accepted s = true).
Proof.
  split; [|split; [|split]].
  - intros img. apply channelsOf_no_pixel.
  - apply extractChannels_few_pixels.
  - apply calculatePerfusionIndexSafe_zero_dc.
  - apply zero_infrared_dominance.
Qed.

(** A frame without pixels gives red 0 and ir 0 in the plain extractor and
    the all-zero sample in the signal extractor; a signal of zeros has
    perfusion index 0. *)
Lemma guarded_divisions_witness :
  PPGProcessor.red (PPGProcessor.extractChannels Fixtures.emptyFrame) = 0%float
  /\ PPGProcessor.ir (PPGProcessor.extractChannels Fixtures.emptyFrame) = 0%float
  /\ fst (SignalExtractor.extractChannels SignalExtractor.init Fixtures.emptyFrame)
     = SignalExtractor.noFinger
  /\ UltraAdvancedPPGProcessor.calculatePerfusionIndexSafe [0; 0; 0]%float
     = 0%float.
Proof.
  pose proof guarded_divisions as (G1 & G2 & G3 & _).
  assert (P : (PPGProcessor.pixelCount
                 (PPGProcessor.scanRegion Fixtures.emptyFrame) <= 0)%Z)
    by (vm_compute; discriminate).
  assert (F : (SignalExtractor.pixelCount
                 (SignalExtractor.scanRegion Fixtures.emptyFrame)
               < SignalExtractor.minValidPixels)%Z)
    by (vm_compute; reflexivity).
  destruct (G1 Fixtures.emptyFrame P) as [R1 R2].
  split; [exact R1|]. split; [exact R2|]. split.
  - rewrite (G2 SignalExtractor.init Fixtures.emptyFrame F). reflexivity.
  - apply G3. reflexivity.
Defined.

(** C7, as stated, fails: on a frame whose pixels are red 100, green 0 and
    blue 0, a thousand pixels are accepted, the infrared average is 0 and
    the division [avgRed / avgIr] gives Infinity, not 0; the frame is
    accepted. *)
Lemma dominance_ratio_is_not_guarded :
  let s := SignalExtractor.scanRegion Fixtures.redOnlyFrame in
  SignalExtractor.pixelCount s = 1000%Z
  /\ SignalExtractor.avgRed s = 100%float
  /\ SignalExtractor.avgIr s = 0%float
  /\ SignalExtractor.redDominance s = infinity
  /\ SignalExtractor.accepted s = true.
Proof. vm_compute. repeat split; reflexivity. Qed.

(** The quality of the plain [extractChannels] on a frame without pixels. *)
Lemma plain_quality_without_pixels :
  PPGProcessor.saturationRatio (PPGProcessor.scanRegion Fixtures.emptyFrame)
  = nan
  /\ PPGProcessor.quality (PPGProcessor.extractChannels Fixtures.emptyFrame)
     = nan.
Proof. vm_compute. split; reflexivity. Qed.

End Divisions.

(** ** The Kalman filter shared by the two channels *)

Module SharedFilter.

Import SignalExtractor.

Lemma extractChannels_accepted st img :
  accepted (scanRegion img) = true ->
  extractChannels st img = smoothAndScore st (scanRegion img).
Proof.
  unfold accepted, extractChannels. intros A.
  apply andb_prop in A. destruct A as [A1 A2].
  apply negb_true_iff in A1. apply negb_true_iff in A2.
  cbv zeta. rewrite A1, A2. reflexivity.
Qed.



End SharedFilter.

(** ** The arrhythmia decision *)

Module Rhythm.

Import UltraAdvancedPPGProcessor.

(** On at least two peaks the code computes the coefficient of variation
    of the intervals. *)
Lemma calculateHeartRateVariability_cv peaks :
  (List.length peaks <? 2)%nat = false ->
  calculateHeartRateVariability peaks
  = coefficientOfVariation (intervalsOfPeaks peaks).
Proof.
  intros L. unfold calculateHeartRateVariability. rewrite L. reflexivity.
Qed.

(** The flag is the test of the coefficient of variation against 0.2, for
    every list of peaks. *)
Lemma hasArrhythmia_cv peaks :
  hasArrhythmia (rhythmOfPeaks peaks)
  = (0.2 <? coefficientOfVariation (intervalsOfPeaks peaks))%float.
Proof.
  unfold rhythmOfPeaks. simpl.
  destruct (List.length peaks <? 2)%nat eqn:L.
  - unfold calculateHeartRateVariability. rewrite L.
    destruct peaks as [|a [|b r]]; try discriminate L; reflexivity.
  - rewrite (calculateHeartRateVariability_cv peaks L). reflexivity.
Qed.

(** C8.  The arrhythmia flag is set exactly when the coefficient of
    variation of the intervals between the peaks (their standard deviation
    divided by their mean) exceeds 0.2; the label is 'Irregular' when the
    flag is set and 'Normal' otherwise; peaks whose intervals are 800, 820,
    795, 1400 and 810 are flagged 'Irregular'. *)
Theorem arrhythmia_flag_is_cv_test (peaks : list JS.number) :
  hasArrhythmia (rhythmOfPeaks peaks)
  = (0.2 <? coefficientOfVariation (intervalsOfPeaks peaks))%float
  /\ arrhythmiaType (rhythmOfPeaks peaks)
     = (if hasArrhythmia (rhythmOfPeaks peaks)
        then "Irregular"%string else "Normal"%string)
  /\ (intervalsOfPeaks peaks = [800; 820; 795; 1400; 810]%float ->
      hasArrhythmia (rhythmOfPeaks peaks) = true
      /\ arrhythmiaType (rhythmOfPeaks peaks) = "Irregular"%string).
Proof.
  split; [apply hasArrhythmia_cv | split; [reflexivity|]].
  intros E.
  assert (F : hasArrhythmia (rhythmOfPeaks peaks) = true).
  { rewrite hasArrhythmia_cv, E. reflexivity. }
  split; [exact F|].
  unfold rhythmOfPeaks in *. simpl in *. rewrite F. reflexivity.
Qed.

(** Peaks at 0, 800, 1620, 2415, 3815 and 4625 have the intervals of the
    scenario and are flagged. *)
Lemma arrhythmia_flag_is_cv_test_witness :
  let peaks := [0; 800; 1620; 2415; 3815; 4625]%float in
  intervalsOfPeaks peaks = [800; 820; 795; 1400; 810]%float
  /\ hasArrhythmia (rhythmOfPeaks peaks) = true
  /\ arrhythmiaType (rhythmOfPeaks peaks) = "Irregular"%string.
Proof.
  intros peaks.
  assert (E : intervalsOfPeaks peaks = [800; 820; 795; 1400; 810]%float)
    by reflexivity.
  split; [exact E|].
  apply (proj2 (proj2 (arrhythmia_flag_is_cv_test peaks)) E).
Defined.

End Rhythm.
